(** * Hive-Tax-CSV: a shallow embedding of [fetchTransactions.py]

    The script reads the dynamic global properties of the Hive chain,
    derives the VESTS-to-HP conversion rate, walks the account history
    and writes one CSV row per taxable event.

    The embedding follows the script line by line.  What the script
    borrows from its runtime is modelled next to it, each part in a
    module of its own:
    - [Float64]: Python's [float] (IEEE 754 binary64) over the Standard
      Library's [spec_float], with [repr] and the [.3f] format;
    - [Decimal]: the text accepted by [decimal.Decimal] and its
      conversion to [float];
    - [Beem]: [beem.amount.Amount] built from a text such as
      ["1.000 HIVE"];
    - [Datetime]: [strptime] and [strftime] for the two formats used;
    - [Csv]: [csv.writer] with the default dialect.

    Text is ASCII throughout, as the node's JSON interface delivers it. *)

From Stdlib Require Import ZArith List Bool Ascii String Lia SpecFloat.
From stdpp Require Import base option list strings gmap.

Local Open Scope string_scope.
Local Open Scope list_scope.
Local Open Scope Z_scope.

(** ** Exceptions and results *)

Inductive exn : Set :=
| ValueError
| KeyError (key : string)
| ZeroDivisionError
| InvalidOperation
| AssetDoesNotExistsException (symbol : string).

Inductive result (A : Type) : Type :=
| Ok (a : A)
| Raise (e : exn).
Arguments Ok {A} a.
Arguments Raise {A} e.

Definition rbind {A B} (r : result A) (k : A -> result B) : result B :=
  match r with
  | Ok a => k a
  | Raise e => Raise e
  end.

Notation "'try' x := e 'in' k" := (rbind e (fun x => k))
  (at level 10, x pattern, e at level 100, k at level 200).

(** ** Characters and decimal digits *)

Module Text.

Definition chars : Type := list ascii.

Definition code (c : ascii) : Z := Z.of_nat (nat_of_ascii c).

Definition is_digit (c : ascii) : bool := (48 <=? code c) && (code c <=? 57).

Definition digit_value (c : ascii) : Z := code c - 48.

Definition digit_char (d : Z) : ascii := ascii_of_nat (Z.to_nat (48 + d)).

(** The ASCII characters removed by [str.strip()]. *)
Definition is_space (c : ascii) : bool :=
  let n := code c in
  ((9 <=? n) && (n <=? 13)) || ((28 <=? n) && (n <=? 32)).

Definition lower (c : ascii) : ascii :=
  let n := code c in
  if (65 <=? n) && (n <=? 90) then ascii_of_nat (Z.to_nat (n + 32)) else c.

Fixpoint lstrip (s : chars) : chars :=
  match s with
  | c :: s' => if is_space c then lstrip s' else s
  | [] => []
  end.

Definition strip (s : chars) : chars := rev (lstrip (rev (lstrip s))).

(** The longest prefix of digits, and what follows it. *)
Fixpoint span_digits (s : chars) : chars * chars :=
  match s with
  | c :: s' =>
      if is_digit c then let '(ds, r) := span_digits s' in (c :: ds, r)
      else ([], s)
  | [] => ([], [])
  end.

(** [int(ds)] for a run of digits, most significant first. *)
Definition digits_value (ds : chars) : Z :=
  fold_left (fun acc c => 10 * acc + digit_value c) ds 0.

(** Decimal numeral of a non-negative integer, without leading zeros. *)
Fixpoint numeral_go (fuel : nat) (n : Z) (acc : chars) : chars :=
  match fuel with
  | O => acc
  | S fuel' =>
      let acc' := digit_char (n mod 10) :: acc in
      if n <? 10 then acc' else numeral_go fuel' (n / 10) acc'
  end.

Definition numeral (n : Z) : chars :=
  numeral_go (S (Z.to_nat (Z.log2 n))) n [].

(** Number of decimal digits of a positive integer. *)
Definition ndigits (n : Z) : Z := Z.of_nat (List.length (numeral n)).

(** [numeral n], left-padded with zeros to [w] characters. *)
Definition zero_pad (w : nat) (n : Z) : chars :=
  let ds := numeral n in
  repeat "0"%char (w - List.length ds)%nat ++ ds.

Definition to_string (s : chars) : string := string_of_list_ascii s.
Definition of_string (s : string) : chars := list_ascii_of_string s.

End Text.

(** ** Python floats: IEEE 754 binary64 *)

Module Float64.
Import Text.

Definition prec : Z := 53.
Definition emax : Z := 1024.

Abbreviation float := spec_float.

Definition zero : float := S754_zero false.

Definition mul : float -> float -> float := SFmul prec emax.

(** [x > 0], as in [if hive_amount > 0:]. *)
Definition gt0 (x : float) : bool := SFltb zero x.

Definition is_zero (x : float) : bool :=
  match x with S754_zero _ => true | _ => false end.

Definition is_finite (x : float) : bool :=
  match x with S754_zero _ | S754_finite _ _ _ => true | _ => false end.

(** [x / y]: Python raises when the divisor is zero, of either sign. *)
Definition truediv (x y : float) : result float :=
  if is_zero y then Raise ZeroDivisionError else Ok (SFdiv prec emax x y).

(** The float nearest to [n / d], ties to even. *)
Definition of_ratio (neg : bool) (n d : positive) : float :=
  let '(q, e, l) := SFdiv_core_binary prec emax (Zpos n) 0 (Zpos d) 0 in
  binary_round_aux prec emax neg q e l.

(** The float nearest to [c * 10^e], with [c] a non-negative integer.
    Beyond 310 digits before the point the result overflows, below
    330 zeros after it the result underflows to zero. *)
Definition of_scaled (neg : bool) (c e : Z) : float :=
  match c with
  | Zpos p =>
      let adj := ndigits c + e in
      if 310 <? adj then S754_infinity neg
      else if adj <? -330 then S754_zero neg
      else if 0 <=? e then binary_round prec emax neg (Z.to_pos (c * 10 ^ e)) 0
      else of_ratio neg p (Z.to_pos (10 ^ (- e)))
  | _ => S754_zero neg
  end.

(** The exact value of a positive finite float as a fraction. *)
Definition fraction (m : positive) (e : Z) : Z * Z :=
  if 0 <=? e then (Zpos m * 2 ^ e, 1) else (Zpos m, 2 ^ (- e)).

(** [scale (n, d) k] is the fraction [n / d / 10^k]. *)
Definition scale (q : Z * Z) (k : Z) : Z * Z :=
  let '(n, d) := q in
  if 0 <=? k then (n, d * 10 ^ k) else (n * 10 ^ (- k), d).

(** Position of the decimal point: the [p] with
    [10^(p-1) <= n/d < 10^p]. *)
Definition decimal_point (q : Z * Z) : Z :=
  let '(n, d) := q in
  if d <=? n then ndigits (n / d)
  else 1 - ndigits ((d + n - 1) / n - 1).

(** Rounding of [n / d] to an integer, ties to even. *)
Definition round_half_even (q : Z * Z) : Z :=
  let '(n, d) := q in
  let lo := n / d in
  let r := n mod d in
  match 2 * r ?= d with
  | Lt => lo
  | Gt => lo + 1
  | Eq => if Z.even lo then lo else lo + 1
  end.

Fixpoint strip_zeros_go (fuel : nat) (c k : Z) : Z * Z :=
  match fuel with
  | O => (c, k)
  | S fuel' =>
      if (c mod 10 =? 0) && (0 <? c) then strip_zeros_go fuel' (c / 10) (k + 1)
      else (c, k)
  end.

(** Drop the trailing zeros of the coefficient of [c * 10^k]. *)
Definition strip_zeros (c k : Z) : Z * Z :=
  strip_zeros_go (Z.to_nat (Z.log2 c)) c k.

(** The shortest decimal that reads back as [x]: for 1, 2, ... digits,
    the two decimals of that length around [x] are tried; when both read
    back as [x] the nearer one wins, ties to even. *)
Fixpoint shortest_go (fuel : nat) (n : Z) (x : float) (q : Z * Z) (p : Z)
  : Z * Z :=
  let k := p - n in
  let '(a, b) := scale q k in
  let lo := a / b in
  let hi := lo + 1 in
  let lo_ok := SFeqb (of_scaled false lo k) x in
  let hi_ok := SFeqb (of_scaled false hi k) x in
  match fuel with
  | O => (round_half_even (a, b), k)
  | S fuel' =>
      if lo_ok && hi_ok then (round_half_even (a, b), k)
      else if lo_ok then (lo, k)
      else if hi_ok then (hi, k)
      else shortest_go fuel' (n + 1) x q p
  end.

(** Digits and decimal point of [repr] for a positive finite float. *)
Definition shortest (m : positive) (e : Z) : chars * Z :=
  let q := fraction m e in
  let '(c, k) := shortest_go 16 1 (S754_finite false m e) q (decimal_point q) in
  let '(c', k') := strip_zeros c k in
  let ds := numeral c' in
  (ds, Z.of_nat (List.length ds) + k').

Definition zeros (n : Z) : chars := repeat "0"%char (Z.to_nat n).

Definition exponent_text (x : Z) : chars :=
  (if x <? 0 then "-"%char else "+"%char) :: zero_pad 2 (Z.abs x).

(** Layout of [repr]: exponent notation when the decimal point falls
    more than 16 places right or more than 3 zeros left of the digits. *)
Definition layout (ds : chars) (p : Z) : chars :=
  if (p <=? -4) || (16 <? p) then
    match ds with
    | [] => []
    | d :: [] => d :: "e"%char :: exponent_text (p - 1)
    | d :: rest => d :: "."%char :: rest ++ "e"%char :: exponent_text (p - 1)
    end
  else if p <=? 0 then
    "0"%char :: "."%char :: zeros (- p) ++ ds
  else if Z.of_nat (List.length ds) <=? p then
    ds ++ zeros (p - Z.of_nat (List.length ds)) ++ [ "."%char; "0"%char ]
  else
    take (Z.to_nat p) ds ++ "."%char :: drop (Z.to_nat p) ds.

Definition sign_text (neg : bool) : chars := if neg then [ "-"%char ] else [].

(** [repr(x)], which is also [f"{x}"] and [str(x)]. *)
Definition repr (x : float) : string :=
  to_string
    match x with
    | S754_nan => of_string "nan"
    | S754_infinity s => sign_text s ++ of_string "inf"
    | S754_zero s => sign_text s ++ of_string "0.0"
    | S754_finite s m e =>
        let '(ds, p) := shortest m e in sign_text s ++ layout ds p
    end.

(** [f"{x:.3f}"]: the exact value rounded to thousandths, ties to even. *)
Definition format_3f (x : float) : string :=
  to_string
    match x with
    | S754_nan => of_string "nan"
    | S754_infinity s => sign_text s ++ of_string "inf"
    | S754_zero s => sign_text s ++ of_string "0.000"
    | S754_finite s m e =>
        let t := round_half_even (scale (fraction m e) (-3)) in
        sign_text s ++ numeral (t / 1000) ++ "."%char :: zero_pad 3 (t mod 1000)
    end.

End Float64.

(** ** [decimal.Decimal]: the constructor from text, and [float(d)] *)

Module Decimal.
Import Text.

Inductive t : Set :=
| Finite (neg : bool) (coeff exp : Z)
| Infinity (neg : bool)
| NaN (neg signaling : bool).

Definition MAX_EMAX : Z := 999999999999999999.
Definition MIN_ETINY : Z := -1999999999999999997.

Definition take_sign (s : chars) : bool * chars :=
  match s with
  | "-"%char :: r => (true, r)
  | "+"%char :: r => (false, r)
  | _ => (false, s)
  end.

(** What may follow the exponent indicator: a sign and digits. *)
Definition parse_exponent (s : chars) : option Z :=
  let '(neg, r) := take_sign s in
  match span_digits r with
  | ((_ :: _) as ds, []) => Some (if neg then - digits_value ds else digits_value ds)
  | _ => None
  end.

(** digits [. digits] [e exponent], with a digit on one side of the
    point at least. *)
Definition parse_finite (neg : bool) (s : chars) : option t :=
  let '(ip, r1) := span_digits s in
  let '(fp, r2) :=
    match r1 with
    | "."%char :: r => span_digits r
    | _ => ([], r1)
    end in
  let ex :=
    match r2 with
    | [] => Some 0
    | "e"%char :: r => parse_exponent r
    | _ => None
    end in
  match ip ++ fp, ex with
  | (_ :: _) as ds, Some x =>
      let c := digits_value ds in
      let e := x - Z.of_nat (List.length fp) in
      if (MIN_ETINY <=? e) && (e + ndigits c - 1 <=? MAX_EMAX)
      then Some (Finite neg c e) else None
  | _, _ => None
  end.

(** nan or snan, then an optional run of digits. *)
Definition parse_nan (neg : bool) (s : chars) : option t :=
  let payload signaling r :=
    match span_digits r with
    | (_, []) => Some (NaN neg signaling)
    | _ => None
    end in
  match s with
  | "n"%char :: "a"%char :: "n"%char :: r => payload false r
  | "s"%char :: "n"%char :: "a"%char :: "n"%char :: r => payload true r
  | _ => None
  end.

(** [Decimal(s)]: surrounding whitespace is stripped, underscores are
    dropped, letters are read in either case. *)
Definition of_chars (s : chars) : result t :=
  let body := map lower (filter (fun c => negb (Ascii.eqb c "_"%char)) (strip s)) in
  let '(neg, r) := take_sign body in
  let parsed :=
    if bool_decide (r = Text.of_string "inf") || bool_decide (r = Text.of_string "infinity")
    then Some (Infinity neg)
    else match parse_nan neg r with
         | Some d => Some d
         | None => parse_finite neg r
         end in
  match parsed with
  | Some d => Ok d
  | None => Raise InvalidOperation
  end.

(** [float(d)]: the nearest float; a signaling NaN is refused. *)
Definition to_float (d : t) : result Float64.float :=
  match d with
  | Finite neg c e => Ok (Float64.of_scaled neg c e)
  | Infinity neg => Ok (S754_infinity neg)
  | NaN _ false => Ok S754_nan
  | NaN _ true => Raise ValueError
  end.

End Decimal.

(** ** [datetime.strptime] and [strftime] *)

Module Datetime.
Import Text.

Record datetime : Set := mk_datetime
  { year : Z; month : Z; day : Z; hour : Z; minute : Z; second : Z }.

(** A field of the pattern: every way to read it off the front of the
    text, in the order the regular expression tries them. *)
Definition reader (A : Type) : Type := chars -> list (A * chars).

Definition seq {A B} (r : reader A) (k : A -> reader B) : reader B :=
  fun s => flat_map (fun '(a, rest) => k a rest) (r s).

Definition give {A} (a : A) : reader A := fun s => [(a, s)].

(** A literal of the format; the pattern ignores case. *)
Definition lit (c : ascii) : reader unit :=
  fun s =>
    match s with
    | c' :: rest => if Ascii.eqb (lower c') (lower c) then [(tt, rest)] else []
    | [] => []
    end.

(** Two digits [a b] with [P a b], as one alternative. *)
Definition two (P : Z -> Z -> bool) : reader Z :=
  fun s =>
    match s with
    | a :: b :: rest =>
        if is_digit a && is_digit b && P (digit_value a) (digit_value b)
        then [(10 * digit_value a + digit_value b, rest)] else []
    | _ => []
    end.

(** One digit [a] with [P a], as one alternative. *)
Definition one (P : Z -> bool) : reader Z :=
  fun s =>
    match s with
    | a :: rest =>
        if is_digit a && P (digit_value a) then [(digit_value a, rest)] else []
    | [] => []
    end.

Definition alt {A} (r1 r2 : reader A) : reader A := fun s => r1 s ++ r2 s.

(** [%Y]: four digits. *)
Definition read_Y : reader Z :=
  seq (two (fun _ _ => true)) (fun hi =>
  seq (two (fun _ _ => true)) (fun lo => give (100 * hi + lo))).

(** [%m]: [1[0-2]|0[1-9]|[1-9]]. *)
Definition read_m : reader Z :=
  alt (two (fun a b => (a =? 1) && (b <=? 2)))
 (alt (two (fun a b => (a =? 0) && (1 <=? b)))
      (one (fun a => 1 <=? a))).

(** [%d]: [3[0-1]|[1-2]\d|0[1-9]|[1-9]| [1-9]]. *)
Definition read_d : reader Z :=
  alt (two (fun a b => (a =? 3) && (b <=? 1)))
 (alt (two (fun a b => (1 <=? a) && (a <=? 2)))
 (alt (two (fun a b => (a =? 0) && (1 <=? b)))
 (alt (one (fun a => 1 <=? a))
      (seq (lit " "%char) (fun _ => one (fun a => 1 <=? a)))))).

(** [%H]: [2[0-3]|[0-1]\d|\d]. *)
Definition read_H : reader Z :=
  alt (two (fun a b => (a =? 2) && (b <=? 3)))
 (alt (two (fun a b => a <=? 1))
      (one (fun _ => true))).

(** [%M]: [[0-5]\d|\d]. *)
Definition read_M : reader Z :=
  alt (two (fun a b => a <=? 5)) (one (fun _ => true)).

(** [%S]: [6[0-1]|[0-5]\d|\d]. *)
Definition read_S : reader Z :=
  alt (two (fun a b => (a =? 6) && (b <=? 1)))
 (alt (two (fun a b => a <=? 5))
      (one (fun _ => true))).

(** The pattern of ["%Y-%m-%dT%H:%M:%S"]. *)
Definition read_iso : reader datetime :=
  seq read_Y (fun y => seq (lit "-"%char) (fun _ =>
  seq read_m (fun mo => seq (lit "-"%char) (fun _ =>
  seq read_d (fun d => seq (lit "T"%char) (fun _ =>
  seq read_H (fun h => seq (lit ":"%char) (fun _ =>
  seq read_M (fun mi => seq (lit ":"%char) (fun _ =>
  seq read_S (fun s => give (mk_datetime y mo d h mi s)))))))))))).

Definition is_leap (y : Z) : bool :=
  (y mod 4 =? 0) && (negb (y mod 100 =? 0) || (y mod 400 =? 0)).

Definition days_in_month (y m : Z) : Z :=
  if m =? 2 then (if is_leap y then 29 else 28)
  else if (m =? 4) || (m =? 6) || (m =? 9) || (m =? 11) then 30
  else 31.

(** The checks of the [datetime] constructor that the pattern leaves. *)
Definition valid (t : datetime) : bool :=
  (1 <=? year t) && (day t <=? days_in_month (year t) (month t))
  && (second t <=? 59).

(** [datetime.strptime(s, "%Y-%m-%dT%H:%M:%S")]: the first match of
    the pattern must use up the text and name a real date. *)
Definition strptime (s : string) : result datetime :=
  match read_iso (Text.of_string s) with
  | (t, []) :: _ => if valid t then Ok t else Raise ValueError
  | _ => Raise ValueError
  end.

(** [t.strftime("%Y-%m-%d %H:%M:%S")].  The C library prints [%Y]
    without padding, the other fields on two digits. *)
Definition strftime (t : datetime) : string :=
  to_string
    (numeral (year t) ++ "-"%char :: zero_pad 2 (month t) ++ "-"%char ::
     zero_pad 2 (day t) ++ " "%char :: zero_pad 2 (hour t) ++ ":"%char ::
     zero_pad 2 (minute t) ++ ":"%char :: zero_pad 2 (second t)).

End Datetime.

(** ** [csv.writer] with the default dialect *)

Module Csv.
Import Text.

Definition quotechar : ascii := ascii_of_nat 34.
Definition CR : ascii := ascii_of_nat 13.
Definition LF : ascii := ascii_of_nat 10.

Definition special (c : ascii) : bool :=
  Ascii.eqb c ","%char || Ascii.eqb c quotechar || Ascii.eqb c CR || Ascii.eqb c LF.

Definition escape (s : chars) : chars :=
  flat_map (fun c => if Ascii.eqb c quotechar then [c; c] else [c]) s.

(** Minimal quoting: only a field holding a special character. *)
Definition field (f : string) : chars :=
  let s := Text.of_string f in
  if existsb special s then quotechar :: escape s ++ [quotechar] else s.

Fixpoint join (fs : list chars) : chars :=
  match fs with
  | [] => []
  | [f] => f
  | f :: rest => f ++ ","%char :: join rest
  end.

(** The text [writerow] sends to the file. *)
Definition line (r : list string) : string :=
  to_string
    (match r with
     | [ EmptyString ] => [quotechar; quotechar]
     | _ => join (map field r)
     end ++ [CR; LF]).

Definition text (rows : list (list string)) : string :=
  fold_right (fun r acc => line r +:+ acc) "" rows.

End Csv.

(** ** [beem.amount.Amount] *)

Module Beem.
Import Text.

(** What [Amount(text)] keeps: the magnitude as a [Decimal] and the
    symbol as written. *)
Record Amount : Set := mk_Amount
  { decimal : Decimal.t; symbol : string }.

(** [s.split(" ")]: the pieces between single spaces. *)
Fixpoint split_space (s : chars) : list chars :=
  match s with
  | [] => [[]]
  | c :: s' =>
      if Ascii.eqb c " "%char then [] :: split_space s'
      else match split_space s' with
           | piece :: pieces => (c :: piece) :: pieces
           | [] => [[c]]
           end
  end.

(** [Asset(id)] succeeds when the chain lists [id] as a symbol or as
    an asset identifier. *)
Definition known (chain_assets : list (string * string)) (id : string) : bool :=
  existsb (fun '(nai, sym) => String.eqb id sym || String.eqb id nai) chain_assets.

(** [Amount(text)] for a text: exactly two pieces, an asset of the
    chain, a magnitude [Decimal] accepts. *)
Definition of_string (chain_assets : list (string * string)) (text : string)
  : result Amount :=
  match split_space (Text.of_string text) with
  | [a; sym] =>
      if known chain_assets (to_string sym) then
        try d := Decimal.of_chars a in Ok (mk_Amount d (to_string sym))
      else Raise (AssetDoesNotExistsException (to_string sym))
  | _ => Raise ValueError
  end.

(** The [amount] property: the magnitude as a float.  The script
    relies on it: it divides one [amount] by another to get the rate
    and multiplies [float(amount.amount)] by that rate, which a
    [Decimal] would refuse. *)
Definition amount (a : Amount) : result Float64.float :=
  Decimal.to_float (decimal a).

End Beem.

(** ** The script *)

(** An operation of the account history, or the dynamic global
    properties: a dictionary from field names to texts. *)
Abbreviation dict := (gmap string string).

(** [d[key]] *)
Definition getitem (d : dict) (key : string) : result string :=
  match d !! key with
  | Some v => Ok v
  | None => Raise (KeyError key)
  end.

(** [d.get(key, fallback)] *)
Definition get (d : dict) (key fallback : string) : string :=
  default fallback (d !! key).

(** The rows written to the file so far, oldest first. *)
Definition file : Type := list (list string).

(** Statements that write rows and may raise: the rows written before
    an exception stay in the file. *)
Definition M (A : Type) : Type := file -> file * result A.

Definition ret {A} (a : A) : M A := fun f => (f, Ok a).

Definition bind {A B} (m : M A) (k : A -> M B) : M B :=
  fun f =>
    match m f with
    | (f', Ok a) => k a f'
    | (f', Raise e) => (f', Raise e)
    end.

Definition lift {A} (r : result A) : M A := fun f => (f, r).

(** [writer.writerow(r)] *)
Definition writerow (r : list string) : M unit := fun f => (f ++ [r], Ok tt).

(** [if b: m] *)
Definition when (b : bool) (m : M unit) : M unit := if b then m else ret tt.

Notation "'do' x <- m ; k" := (bind m (fun x => k))
  (at level 10, x name, m at level 100, k at level 200).
Notation "'exec' m ; k" := (bind m (fun _ => k))
  (at level 10, m at level 100, k at level 200).

(** [for x in xs: body(x)] *)
Fixpoint for_each {A} (body : A -> M unit) (xs : list A) : M unit :=
  match xs with
  | [] => ret tt
  | x :: xs' => exec body x ; for_each body xs'
  end.

Definition header : list string :=
  ["Time"; "Type"; "In"; "In-Currency"; "Out"; "Out-Currency";
   "Fee"; "Fee-Currency"; "Market"; "Note"].

Section Script.

(** The assets of the chain the session talks to, each with its
    identifier and its symbol. *)
Variable chain_assets : list (string * string).

Definition Amount : string -> result Beem.Amount := Beem.of_string chain_assets.

(** Lines 18-21: the rate from the dynamic global properties. *)
Definition init_conversion_rate (dyn_props : dict) : result Float64.float :=
  try fund := getitem dyn_props "total_vesting_fund_hive" in
  try fund := Amount fund in
  try total_vesting_fund_hive := Beem.amount fund in
  try shares := getitem dyn_props "total_vesting_shares" in
  try shares := Amount shares in
  try total_vesting_shares := Beem.amount shares in
  Float64.truediv total_vesting_fund_hive total_vesting_shares.

Section Loop.

(** The module-level [conversion_rate], set once before the loop. *)
Variable conversion_rate : Float64.float.

Definition parse_amount (amount_str : string) (is_vests : bool)
  : result Float64.float :=
  try amount := Amount amount_str in
  try value := Beem.amount amount in
  if is_vests then Ok (Float64.mul value conversion_rate) else Ok value.

(** Lines 40-66: the body of the loop over the history. *)
Definition loop_body (operation : dict) : M unit :=
  do timestamp <- lift (try s := getitem operation "timestamp" in Datetime.strptime s) ;
  do type <- lift (getitem operation "type") ;
  let time := Datetime.strftime timestamp in
  if String.eqb type "claim_reward_balance" then
    do hive_amount <- lift (parse_amount (get operation "reward_hive" "0 HIVE") false) ;
    do hbd_amount <- lift (parse_amount (get operation "reward_hbd" "0 HBD") false) ;
    do vests_amount <- lift (parse_amount (get operation "reward_vests" "0 VESTS") true) ;
    exec when (Float64.gt0 hive_amount)
      (writerow [time; "Income"; Float64.repr hive_amount; "HIVE"; ""; ""; ""; ""; ""; ""]) ;
    exec when (Float64.gt0 hbd_amount)
      (writerow [time; "Income"; Float64.repr hbd_amount; "HBD"; ""; ""; ""; ""; ""; ""]) ;
    when (Float64.gt0 vests_amount)
      (writerow [time; "Income"; Float64.format_3f vests_amount; "HP"; ""; ""; ""; ""; ""; ""])
  else if String.eqb type "interest" then
    do interest_amount <- lift (parse_amount (get operation "interest" "0 HBD") false) ;
    writerow [time; "Interest"; Float64.repr interest_amount; "HBD"; ""; ""; ""; ""; ""; ""]
  else if String.eqb type "fill_convert_request" then
    do amount_in <- lift (try s := getitem operation "amount_in" in Amount s) ;
    do amount_out <- lift (try s := getitem operation "amount_out" in Amount s) ;
    do value_in <- lift (Beem.amount amount_in) ;
    do value_out <- lift (Beem.amount amount_out) ;
    writerow [time; "Transaction"; Float64.repr value_in; Beem.symbol amount_in;
              Float64.repr value_out; Beem.symbol amount_out; ""; "";
              "Hive Internal Market"; "Conversion"]
  else if String.eqb type "fill_order" then
    do current_pays <- lift (try s := getitem operation "current_pays" in Amount s) ;
    do open_pays <- lift (try s := getitem operation "open_pays" in Amount s) ;
    do value_in <- lift (Beem.amount current_pays) ;
    do value_out <- lift (Beem.amount open_pays) ;
    writerow [time; "Trade"; Float64.repr value_in; Beem.symbol current_pays;
              Float64.repr value_out; Beem.symbol open_pays; ""; "";
              "Hive Internal Market"; "Trade"]
  else ret tt.

End Loop.

(** The whole run, for the dynamic global properties and the account
    history the node answers with (the history is already limited to
    the four kinds and to the dates of the configuration).  The file
    exists only once the rate is known; it is opened empty, gets the
    header, then the rows of each operation in the order of the
    history. *)
Definition main (dyn_props : dict) (history : list dict)
  : option file * result unit :=
  match init_conversion_rate dyn_props with
  | Raise e => (None, Raise e)
  | Ok conversion_rate =>
      let '(f, r) := (exec writerow header ; for_each (loop_body conversion_rate) history) [] in
      (Some f, r)
  end.

End Script.

(** The asset table of the Hive chain. *)
Definition hive_assets : list (string * string) :=
  [("@@000000013", "HBD"); ("@@000000021", "HIVE"); ("@@000000037", "VESTS")].

(** ** Vocabulary of the statements *)

(** The rows an iteration adds to a file that held [f]. *)
Definition new_rows (f : file) (m : M unit) : list (list string) :=
  drop (List.length f) (fst (m f)).

(** [[r]] when [b] holds, nothing otherwise. *)
Definition keep (b : bool) (r : list string) : list (list string) :=
  if b then [r] else [].

Definition income_row (time amount currency : string) : list string :=
  [time; "Income"; amount; currency; ""; ""; ""; ""; ""; ""].

(** The four kinds of operation the loop handles. *)
Definition recognized : list string :=
  ["claim_reward_balance"; "interest"; "fill_convert_request"; "fill_order"].

(** A text that ends in a point and three digits, after one digit or
    more: [12.345], not [12.34], [1e+22] or [inf]. *)
Definition three_decimals (s : string) : bool :=
  match rev (Text.of_string s) with
  | c :: b :: a :: p :: whole =>
      Ascii.eqb p "."%char && Text.is_digit a && Text.is_digit b && Text.is_digit c
      && forallb Text.is_digit whole && negb (bool_decide (whole = []))
  | _ => false
  end.

(** A timestamp as the node writes it, [YYYY-MM-DDTHH:MM:SS], and the
    same fields as the rows show them, [YYYY-MM-DD HH:MM:SS]. *)
Definition iso_timestamp (y1 y2 y3 y4 m1 m2 d1 d2 h1 h2 n1 n2 s1 s2 : ascii) : string :=
  Text.to_string
    [y1; y2; y3; y4; "-"%char; m1; m2; "-"%char; d1; d2; "T"%char;
     h1; h2; ":"%char; n1; n2; ":"%char; s1; s2].

Definition sql_timestamp (y1 y2 y3 y4 m1 m2 d1 d2 h1 h2 n1 n2 s1 s2 : ascii) : string :=
  Text.to_string
    [y1; y2; y3; y4; "-"%char; m1; m2; "-"%char; d1; d2; " "%char;
     h1; h2; ":"%char; n1; n2; ":"%char; s1; s2].

(** The value of two digits. *)
Definition field2 (a b : ascii) : Z := 10 * Text.digit_value a + Text.digit_value b.

(** The fourteen characters are digits and name a date and a time of
    day, in the year 1000 or later (the C library prints an earlier
    year on fewer than four digits). *)
Definition full_width (y1 y2 y3 y4 m1 m2 d1 d2 h1 h2 n1 n2 s1 s2 : ascii) : bool :=
  forallb Text.is_digit [y1; y2; y3; y4; m1; m2; d1; d2; h1; h2; n1; n2; s1; s2]
  && (1 <=? Text.digit_value y1)
  && (1 <=? field2 m1 m2) && (field2 m1 m2 <=? 12)
  && (1 <=? field2 d1 d2)
  && (field2 d1 d2 <=?
        Datetime.days_in_month (100 * field2 y1 y2 + field2 y3 y4) (field2 m1 m2))
  && (field2 h1 h2 <=? 23) && (field2 n1 n2 <=? 59) && (field2 s1 s2 <=? 59).

(** The date and time the fourteen digits name. *)
Definition full_width_datetime (y1 y2 y3 y4 m1 m2 d1 d2 h1 h2 n1 n2 s1 s2 : ascii)
  : Datetime.datetime :=
  Datetime.mk_datetime (100 * field2 y1 y2 + field2 y3 y4) (field2 m1 m2)
    (field2 d1 d2) (field2 h1 h2) (field2 n1 n2) (field2 s1 s2).

Definition digit_values : list Z := [0; 1; 2; 3; 4; 5; 6; 7; 8; 9].

(** The first reading of a field, whatever other readings follow. *)
Definition starts {A} (l : list (A * Text.chars)) (x : A * Text.chars) : Prop :=
  exists rest, l = x :: rest.

(** The end of a line of the file. *)
Definition eol : string := Text.to_string [Csv.CR; Csv.LF].

(** *** Every way an iteration can end *)

(** The rows an iteration adds and how it ends.  An exception comes
    before the first row of the iteration, so it leaves none of them. *)
Inductive iteration (chain : list (string * string)) (rate : Float64.float)
    (op : dict) : list (list string) -> result unit -> Prop :=
| iter_raise (e : exn) :
    iteration chain rate op [] (Raise e)
| iter_other (s : string) (t : Datetime.datetime) (ty : string) :
    op !! "timestamp" = Some s -> Datetime.strptime s = Ok t ->
    op !! "type" = Some ty -> ty ∉ recognized ->
    iteration chain rate op [] (Ok tt)
| iter_claim (s : string) (t : Datetime.datetime)
    (hive_amount hbd_amount vests_amount : Float64.float) :
    op !! "timestamp" = Some s -> Datetime.strptime s = Ok t ->
    op !! "type" = Some "claim_reward_balance" ->
    parse_amount chain rate (get op "reward_hive" "0 HIVE") false = Ok hive_amount ->
    parse_amount chain rate (get op "reward_hbd" "0 HBD") false = Ok hbd_amount ->
    parse_amount chain rate (get op "reward_vests" "0 VESTS") true = Ok vests_amount ->
    iteration chain rate op
      (keep (Float64.gt0 hive_amount)
         (income_row (Datetime.strftime t) (Float64.repr hive_amount) "HIVE")
       ++ keep (Float64.gt0 hbd_amount)
         (income_row (Datetime.strftime t) (Float64.repr hbd_amount) "HBD")
       ++ keep (Float64.gt0 vests_amount)
         (income_row (Datetime.strftime t) (Float64.format_3f vests_amount) "HP"))
      (Ok tt)
| iter_interest (s : string) (t : Datetime.datetime) (interest_amount : Float64.float) :
    op !! "timestamp" = Some s -> Datetime.strptime s = Ok t ->
    op !! "type" = Some "interest" ->
    parse_amount chain rate (get op "interest" "0 HBD") false = Ok interest_amount ->
    iteration chain rate op
      [[Datetime.strftime t; "Interest"; Float64.repr interest_amount; "HBD";
        ""; ""; ""; ""; ""; ""]]
      (Ok tt)
| iter_pair (s : string) (t : Datetime.datetime)
    (ty key_in key_out category note text_in text_out : string)
    (amount_in amount_out : Beem.Amount) (value_in value_out : Float64.float) :
    op !! "timestamp" = Some s -> Datetime.strptime s = Ok t ->
    (ty, key_in, key_out, category, note)
      = ("fill_convert_request", "amount_in", "amount_out", "Transaction", "Conversion")
    \/ (ty, key_in, key_out, category, note)
      = ("fill_order", "current_pays", "open_pays", "Trade", "Trade") ->
    op !! "type" = Some ty ->
    op !! key_in = Some text_in -> Amount chain text_in = Ok amount_in ->
    op !! key_out = Some text_out -> Amount chain text_out = Ok amount_out ->
    Beem.amount amount_in = Ok value_in ->
    Beem.amount amount_out = Ok value_out ->
    iteration chain rate op
      [[Datetime.strftime t; category;
        Float64.repr value_in; Beem.symbol amount_in;
        Float64.repr value_out; Beem.symbol amount_out;
        ""; ""; "Hive Internal Market"; note]]
      (Ok tt).

(** *** One operation on its own *)

(** The rows an operation writes into an empty file, and how its
    iteration ends. *)
Definition rows_of (chain : list (string * string)) (rate : Float64.float)
    (op : dict) : list (list string) :=
  fst (loop_body chain rate op []).

Definition outcome (chain : list (string * string)) (rate : Float64.float)
    (op : dict) : result unit :=
  snd (loop_body chain rate op []).

(** The operations of a history whose iterations run to their end:
    all of them up to the first one that raises. *)
Fixpoint completed (chain : list (string * string)) (rate : Float64.float)
    (ops : list dict) : list dict :=
  match ops with
  | [] => []
  | op :: rest =>
      match outcome chain rate op with
      | Ok _ => op :: completed chain rate rest
      | Raise _ => []
      end
  end.

(** The first exception of a history, if any. *)
Fixpoint first_raise (chain : list (string * string)) (rate : Float64.float)
    (ops : list dict) : result unit :=
  match ops with
  | [] => Ok tt
  | op :: rest =>
      match outcome chain rate op with
      | Ok _ => first_raise chain rate rest
      | Raise e => Raise e
      end
  end.

(** ** Sample inputs *)

Definition op_of (fields : list (string * string)) : dict := list_to_map fields.

Definition fill_order_example : dict :=
  op_of [("type", "fill_order"); ("current_pays", "1.000 HIVE");
         ("open_pays", "0.500 HBD"); ("timestamp", "2023-05-01T12:00:00")].

Definition reward_example : dict :=
  op_of [("type", "claim_reward_balance"); ("reward_hive", "0 HIVE");
         ("reward_hbd", "2.500 HBD"); ("reward_vests", "1234.567891 VESTS");
         ("timestamp", "2023-06-15T09:30:00")].

Definition interest_example : dict :=
  op_of [("type", "interest"); ("interest", "0.000 HIVE");
         ("timestamp", "2023-07-01T00:00:03")].

Definition transfer_example : dict :=
  op_of [("type", "transfer"); ("amount", "5.000 HIVE");
         ("timestamp", "2023-08-09T10:11:12")].

Definition props_example : dict :=
  op_of [("total_vesting_fund_hive", "190000000.000 HIVE");
         ("total_vesting_shares", "380000000000.000000 VESTS")].

(** An operation that names a kind the loop handles but carries a
    reward that is no amount. *)
Definition broken_reward_example : dict :=
  op_of [("type", "claim_reward_balance"); ("reward_hive", "1.000 HIVE");
         ("reward_hbd", "2.500 HBD"); ("reward_vests", "plenty");
         ("timestamp", "2023-06-15T09:30:00")].

(** A reward claim whose share units, once converted at the rate of
    the samples, are beyond the largest float. *)
Definition overflow_reward_example : dict :=
  op_of [("type", "claim_reward_balance"); ("reward_vests", "1e308 VESTS");
         ("timestamp", "2023-06-15T09:30:00")].

(** The characters of a text that are spaces. *)
Definition spaces (s : Text.chars) : nat :=
  List.length (List.filter (fun c => Ascii.eqb c " "%char) s).

(** No character of the text is a space. *)
Definition no_space (s : Text.chars) : bool :=
  forallb (fun c => negb (Ascii.eqb c " "%char)) s.

(** A transfer whose timestamp is no date. *)
Definition undated_transfer_example : dict :=
  op_of [("type", "transfer"); ("timestamp", "yesterday")].

(** A filled order that lacks what was paid in return. *)
Definition half_order_example : dict :=
  op_of [("type", "fill_order"); ("current_pays", "1.000 HIVE");
         ("timestamp", "2023-05-01T12:00:00")].

(** A reward claim and an interest payment with no amount at all. *)
Definition bare_claim_example : dict :=
  op_of [("type", "claim_reward_balance"); ("timestamp", "2023-06-15T09:30:00")].

Definition bare_interest_example : dict :=
  op_of [("type", "interest"); ("timestamp", "2023-07-01T00:00:03")].

(** A text of the form [dddd-dd-dd dd:dd:dd], every [d] a digit. *)
Definition sql_shape (s : string) : bool :=
  match Text.of_string s with
  | [y1; y2; y3; y4; c1; m1; m2; c2; d1; d2; c3; h1; h2; c4; n1; n2; c5; s1; s2] =>
      forallb Text.is_digit [y1; y2; y3; y4; m1; m2; d1; d2; h1; h2; n1; n2; s1; s2]
      && bool_decide ([c1; c2; c3; c4; c5]
                      = ["-"%char; "-"%char; " "%char; ":"%char; ":"%char])
  | _ => false
  end.

(** A filled order whose timestamp has fields of one digit. *)
Definition short_stamp_example : dict :=
  op_of [("type", "fill_order"); ("current_pays", "1.000 HIVE");
         ("open_pays", "0.500 HBD"); ("timestamp", "2023-5-1T1:2:3")].

(** No character of the text makes [csv.writer] quote the field. *)
Definition unquoted (l : Text.chars) : bool :=
  forallb (fun c => negb (Csv.special c)) l.

Definition plain (s : string) : bool := unquoted (Text.of_string s).

(** The names of the assets of the chain are plain texts. *)
Definition plain_chain (chain : list (string * string)) : bool :=
  forallb (fun '(nai, sym) => plain nai && plain sym) chain.

(** The commas of a text. *)
Definition commas (l : Text.chars) : nat :=
  List.length (List.filter (fun c => Ascii.eqb c ","%char) l).

(** Global properties that lack the total of the shares. *)
Definition props_without_shares_example : dict :=
  op_of [("total_vesting_fund_hive", "190000000.000 HIVE")].

(** A rate for the samples: the float [2.0]. *)
Definition rate_example : Float64.float := S754_finite false 4503599627370496 (-51).

(** ** The runtime model on sample values

    Each line is what the Python prompt answers for the same input. *)

Example decimal_plain :
  Decimal.of_chars (Text.of_string "12.500") = Ok (Decimal.Finite false 12500 (-3)).
Proof. reflexivity. Qed.

Example decimal_exponent :
  Decimal.of_chars (Text.of_string " -1_000.5E+2 ") = Ok (Decimal.Finite true 10005 1).
Proof. reflexivity. Qed.

Example decimal_infinity :
  Decimal.of_chars (Text.of_string "Infinity") = Ok (Decimal.Infinity false).
Proof. reflexivity. Qed.

Example decimal_refused :
  Decimal.of_chars (Text.of_string "1.2.3") = Raise InvalidOperation.
Proof. reflexivity. Qed.

Example float_of_tenth :
  Float64.of_scaled false 1 (-1) = S754_finite false 7205759403792794 (-56).
Proof. vm_compute. reflexivity. Qed.

Example repr_tenth : Float64.repr (Float64.of_scaled false 1 (-1)) = "0.1".
Proof. vm_compute. reflexivity. Qed.

Example repr_whole : Float64.repr (Float64.of_scaled false 1000 (-3)) = "1.0".
Proof. vm_compute. reflexivity. Qed.

Example repr_sum :
  Float64.repr (SFadd Float64.prec Float64.emax
                  (Float64.of_scaled false 1 (-1)) (Float64.of_scaled false 2 (-1)))
  = "0.30000000000000004".
Proof. vm_compute. reflexivity. Qed.

Example repr_large : Float64.repr (Float64.of_scaled false 1 16) = "1e+16".
Proof. vm_compute. reflexivity. Qed.

Example repr_small : Float64.repr (Float64.of_scaled false 12345 (-9)) = "1.2345e-05".
Proof. vm_compute. reflexivity. Qed.

Example format_3f_rounds_up :
  Float64.format_3f (Float64.of_scaled false 6666 (-4)) = "0.667".
Proof. vm_compute. reflexivity. Qed.

(** [1.0005] is the float just below the decimal, so it rounds down. *)
Example format_3f_exact_value :
  Float64.format_3f (Float64.of_scaled false 10005 (-4)) = "1.000".
Proof. vm_compute. reflexivity. Qed.

Example format_3f_large :
  Float64.format_3f (Float64.of_scaled false 1 22) = "10000000000000000000000.000".
Proof. vm_compute. reflexivity. Qed.

Example format_3f_inf : Float64.format_3f (Float64.of_scaled false 1 400) = "inf".
Proof. vm_compute. reflexivity. Qed.

(** A share amount that is itself beyond the largest float, in a whole
    run at the rate of the sample properties. *)
Example main_overflow :
  main hive_assets props_example
    [op_of [("type", "claim_reward_balance"); ("reward_vests", "1e309 VESTS");
            ("timestamp", "2023-06-15T09:30:00")]]
  = (Some [header;
           ["2023-06-15 09:30:00"; "Income"; "inf"; "HP"; ""; ""; ""; ""; ""; ""]],
     Ok tt).
Proof. vm_compute. reflexivity. Qed.

Example three_decimals_samples :
  map three_decimals ["2469.136"; "0.000"; "12.34"; "1e+22"; "inf"; ".123"]
  = [true; true; false; false; false; false].
Proof. reflexivity. Qed.

Example amount_two_spaces : Beem.of_string hive_assets "1.000  HIVE" = Raise ValueError.
Proof. reflexivity. Qed.

Example amount_unknown_asset :
  Beem.of_string hive_assets "1.000 BTC" = Raise (AssetDoesNotExistsException "BTC").
Proof. reflexivity. Qed.

Example strptime_short_fields :
  Datetime.strptime "2023-5-1T1:2:3" = Ok (Datetime.mk_datetime 2023 5 1 1 2 3).
Proof. reflexivity. Qed.

Example strptime_no_such_day : Datetime.strptime "2023-02-29T12:00:00" = Raise ValueError.
Proof. reflexivity. Qed.

Example strptime_trailing : Datetime.strptime "2023-05-01T12:00:00Z" = Raise ValueError.
Proof. reflexivity. Qed.

Example strftime_pads :
  Datetime.strftime (Datetime.mk_datetime 2023 5 1 1 2 3) = "2023-05-01 01:02:03".
Proof. reflexivity. Qed.

Example csv_line_quotes :
  Csv.line ["a,b"; ""; "c"]
  = Text.to_string ([Csv.quotechar] ++ Text.of_string "a,b" ++ [Csv.quotechar]
                    ++ Text.of_string ",,c" ++ [Csv.CR; Csv.LF]).
Proof. reflexivity. Qed.

(** The reward scenario: nothing for the two zero amounts, one row for
    the HBD reward. *)
Example reward_scenario :
  loop_body hive_assets rate_example
    (op_of [("type", "claim_reward_balance"); ("reward_hive", "0 HIVE");
            ("reward_hbd", "2.500 HBD"); ("reward_vests", "0 VESTS");
            ("timestamp", "2023-06-15T09:30:00")]) []
  = ([["2023-06-15 09:30:00"; "Income"; "2.5"; "HBD"; ""; ""; ""; ""; ""; ""]], Ok tt).
Proof. vm_compute. reflexivity. Qed.

(** A run over three operations; the second is skipped. *)
Example main_sample :
  main hive_assets props_example [fill_order_example; transfer_example; reward_example]
  = (Some [header;
           ["2023-05-01 12:00:00"; "Trade"; "1.0"; "HIVE"; "0.5"; "HBD";
            ""; ""; "Hive Internal Market"; "Trade"];
           ["2023-06-15 09:30:00"; "Income"; "2.5"; "HBD"; ""; ""; ""; ""; ""; ""];
           ["2023-06-15 09:30:00"; "Income"; "0.617"; "HP"; ""; ""; ""; ""; ""; ""]],
     Ok tt).
Proof. vm_compute. reflexivity. Qed.

(** An exception stops the run and keeps the rows written before it. *)
Example main_truncated :
  main hive_assets props_example
    [fill_order_example; op_of [("type", "interest"); ("interest", "many HBD");
                                ("timestamp", "2023-07-01T00:00:03")];
     reward_example]
  = (Some [header;
           ["2023-05-01 12:00:00"; "Trade"; "1.0"; "HIVE"; "0.5"; "HBD";
            ""; ""; "Hive Internal Market"; "Trade"]],
     Raise InvalidOperation).
Proof. vm_compute. reflexivity. Qed.

(** ** Basic facts *)

Lemma of_string_to_string (s : Text.chars) : Text.of_string (Text.to_string s) = s.
Proof. apply list_ascii_of_string_of_list_ascii. Qed.

Lemma split_space_piece (s : Text.chars) :
  ~ In " "%char s -> Beem.split_space s = [s].
Proof.
  induction s as [|c s IH]; intros Hs; [reflexivity|].
  simpl. destruct (Ascii.eqb c " "%char) eqn:Hc.
  - apply Ascii.eqb_eq in Hc. subst c. exfalso. apply Hs. now left.
  - rewrite IH; [reflexivity|]. intros Hin. apply Hs. now right.
Qed.

Lemma split_space_pair (a b : Text.chars) :
  ~ In " "%char a -> ~ In " "%char b ->
  Beem.split_space (a ++ " "%char :: b) = [a; b].
Proof.
  intros Ha Hb. induction a as [|c a IH].
  - simpl. now rewrite split_space_piece.
  - simpl. destruct (Ascii.eqb c " "%char) eqn:Hc.
    + apply Ascii.eqb_eq in Hc. subst c. exfalso. apply Ha. now left.
    + rewrite IH; [reflexivity|]. intros Hin. apply Ha. now right.
Qed.

Lemma gt0_zero (x : Float64.float) : Float64.is_zero x = true -> Float64.gt0 x = false.
Proof. destruct x; try discriminate. reflexivity. Qed.

(** Zero times anything is zero or not a number, never positive. *)
Lemma gt0_mul_zero (x y : Float64.float) :
  Float64.is_zero x = true -> Float64.gt0 (Float64.mul x y) = false.
Proof.
  destruct x; try discriminate. intros _.
  destruct y; reflexivity.
Qed.

(** A positive float that is not finite is the infinity, which the
    [.3f] format spells out. *)
Lemma format_3f_infinite (x : Float64.float) :
  Float64.gt0 x = true -> Float64.is_finite x = false ->
  Float64.format_3f x = "inf".
Proof.
  destruct x as [s|s| |s m e]; try discriminate.
  destruct s; [discriminate|]. reflexivity.
Qed.

Lemma gt0_finite (x : Float64.float) :
  Float64.gt0 x = true -> Float64.is_finite x = true ->
  exists m e, x = S754_finite false m e.
Proof.
  destruct x as [s|s| |s m e]; try discriminate.
  destruct s; [discriminate|]. intros _ _. now exists m, e.
Qed.

(** *** The monad *)

Lemma bind_lift_ok {A B} (r : result A) (a : A) (k : A -> M B) (f : file) :
  r = Ok a -> bind (lift r) k f = k a f.
Proof. intros ->. reflexivity. Qed.

Lemma bind_lift_raise {A B} (r : result A) (e : exn) (k : A -> M B) (f : file) :
  r = Raise e -> bind (lift r) k f = (f, Raise e).
Proof. intros ->. reflexivity. Qed.

Lemma bind_when_writerow {B} (b : bool) (r : list string) (k : unit -> M B) (f : file) :
  bind (when b (writerow r)) k f = k tt (f ++ keep b r).
Proof. destruct b; simpl; unfold bind, ret; simpl; [reflexivity|]. now rewrite app_nil_r. Qed.

Lemma when_writerow (b : bool) (r : list string) (f : file) :
  when b (writerow r) f = (f ++ keep b r, Ok tt).
Proof. destruct b; simpl; [reflexivity|]. unfold ret. now rewrite app_nil_r. Qed.

Lemma new_rows_app (f rows : file) (m : M unit) (r : result unit) :
  m f = (f ++ rows, r) -> new_rows f m = rows.
Proof. intros H. unfold new_rows. rewrite H. simpl. apply drop_app_length. Qed.

(** ** The amount parser *)

(** C2: a text made of a decimal, one space and a symbol of the chain
    parses; [parse_amount] returns the decimal's value times
    [conversion_rate] when [is_vests] is set, and the value itself when
    it is not. *)
Theorem parse_amount_converts
    (chain : list (string * string)) (rate : Float64.float)
    (d sym : Text.chars) (dec : Decimal.t) (x : Float64.float) :
  forallb (fun c => negb (Ascii.eqb c " "%char)) (d ++ sym) = true ->
  Beem.known chain (Text.to_string sym) = true ->
  Decimal.of_chars d = Ok dec ->
  Decimal.to_float dec = Ok x ->
  parse_amount chain rate (Text.to_string (d ++ " "%char :: sym)) true
    = Ok (Float64.mul x rate)
  /\ parse_amount chain rate (Text.to_string (d ++ " "%char :: sym)) false
    = Ok x.
Proof.
  intros Hsp Hknown Hdec Hx.
  assert (Hno : forall l, forallb (fun c => negb (Ascii.eqb c " "%char)) l = true ->
                          ~ In " "%char l).
  { intros l Hl Hin. rewrite forallb_forall in Hl. specialize (Hl _ Hin).
    now rewrite Ascii.eqb_refl in Hl. }
  rewrite forallb_app in Hsp. apply andb_prop in Hsp as [Hd Hs].
  assert (HA : Amount chain (Text.to_string (d ++ " "%char :: sym))
               = Ok (Beem.mk_Amount dec (Text.to_string sym))).
  { unfold Amount, Beem.of_string. rewrite of_string_to_string.
    rewrite split_space_pair by auto. rewrite Hknown, Hdec. reflexivity. }
  unfold parse_amount. rewrite HA. cbn [rbind]. unfold Beem.amount.
  cbn [Beem.decimal]. rewrite Hx. split; reflexivity.
Qed.

Lemma parse_amount_converts_witness :
  parse_amount hive_assets rate_example "1234.567891 VESTS" true
    = Ok (Float64.mul (Float64.of_scaled false 1234567891 (-6)) rate_example)
  /\ parse_amount hive_assets rate_example "1234.567891 VESTS" false
    = Ok (Float64.of_scaled false 1234567891 (-6)).
Proof.
  apply (parse_amount_converts hive_assets rate_example
           (Text.of_string "1234.567891") (Text.of_string "VESTS")
           (Decimal.Finite false 1234567891 (-6))).
  - reflexivity.
  - reflexivity.
  - reflexivity.
  - reflexivity.
Defined.

(** ** One iteration of the loop *)

Section Iteration.

Variable chain : list (string * string).
Variable rate : Float64.float.
Variables (op : dict) (f : file).
Variables (s : string) (t : Datetime.datetime).

(** The operation carries a timestamp that [strptime] accepts. *)
Hypothesis Hs : op !! "timestamp" = Some s.
Hypothesis Ht : Datetime.strptime s = Ok t.

Abbreviation time := (Datetime.strftime t).

Ltac enter Hty :=
  unfold loop_body;
  erewrite bind_lift_ok by (unfold getitem; rewrite Hs; exact Ht);
  erewrite bind_lift_ok by (unfold getitem; rewrite Hty; reflexivity).

Lemma body_other (ty : string) :
  op !! "type" = Some ty -> ty ∉ recognized ->
  loop_body chain rate op f = (f, Ok tt).
Proof.
  intros Hty Hnot. enter Hty.
  assert (Hne : forall k, k ∈ recognized -> String.eqb ty k = false).
  { intros k Hk. apply String.eqb_neq. intros ->. now apply Hnot. }
  rewrite !Hne by (unfold recognized; set_solver).
  reflexivity.
Qed.

Lemma body_claim (hive_amount hbd_amount vests_amount : Float64.float) :
  op !! "type" = Some "claim_reward_balance" ->
  parse_amount chain rate (get op "reward_hive" "0 HIVE") false = Ok hive_amount ->
  parse_amount chain rate (get op "reward_hbd" "0 HBD") false = Ok hbd_amount ->
  parse_amount chain rate (get op "reward_vests" "0 VESTS") true = Ok vests_amount ->
  loop_body chain rate op f =
    (f ++ keep (Float64.gt0 hive_amount)
            (income_row time (Float64.repr hive_amount) "HIVE")
       ++ keep (Float64.gt0 hbd_amount)
            (income_row time (Float64.repr hbd_amount) "HBD")
       ++ keep (Float64.gt0 vests_amount)
            (income_row time (Float64.format_3f vests_amount) "HP"),
     Ok tt).
Proof.
  intros Hty Hh Hb Hv. enter Hty. rewrite String.eqb_refl.
  rewrite (bind_lift_ok _ _ _ _ Hh), (bind_lift_ok _ _ _ _ Hb),
    (bind_lift_ok _ _ _ _ Hv).
  rewrite !bind_when_writerow, when_writerow.
  unfold income_row. now rewrite <- !app_assoc.
Qed.

Lemma body_interest (interest_amount : Float64.float) :
  op !! "type" = Some "interest" ->
  parse_amount chain rate (get op "interest" "0 HBD") false = Ok interest_amount ->
  loop_body chain rate op f =
    (f ++ [[time; "Interest"; Float64.repr interest_amount; "HBD";
            ""; ""; ""; ""; ""; ""]], Ok tt).
Proof.
  intros Hty Hx. enter Hty. cbn [String.eqb Ascii.eqb Bool.eqb].
  now rewrite (bind_lift_ok _ _ _ _ Hx).
Qed.

(** The two branches that copy a pair of amounts: the type [ty], the
    fields [key_in] and [key_out], the category and the note. *)
Lemma body_pair (ty key_in key_out category note : string)
    (text_in text_out : string) (amount_in amount_out : Beem.Amount)
    (value_in value_out : Float64.float) :
  (ty, key_in, key_out, category, note)
    = ("fill_convert_request", "amount_in", "amount_out", "Transaction", "Conversion")
  \/ (ty, key_in, key_out, category, note)
    = ("fill_order", "current_pays", "open_pays", "Trade", "Trade") ->
  op !! "type" = Some ty ->
  op !! key_in = Some text_in -> Amount chain text_in = Ok amount_in ->
  op !! key_out = Some text_out -> Amount chain text_out = Ok amount_out ->
  Beem.amount amount_in = Ok value_in ->
  Beem.amount amount_out = Ok value_out ->
  loop_body chain rate op f =
    (f ++ [[time; category;
            Float64.repr value_in; Beem.symbol amount_in;
            Float64.repr value_out; Beem.symbol amount_out;
            ""; ""; "Hive Internal Market"; note]], Ok tt).
Proof.
  intros Hkind Hty Hti Hai Hto Hao Hvi Hvo.
  destruct Hkind as [Hkind|Hkind]; inversion Hkind; subst; clear Hkind;
    enter Hty; cbn [String.eqb Ascii.eqb Bool.eqb];
    (erewrite bind_lift_ok by (unfold getitem; rewrite Hti; exact Hai));
    (erewrite bind_lift_ok by (unfold getitem; rewrite Hto; exact Hao));
    now rewrite (bind_lift_ok _ _ _ _ Hvi), (bind_lift_ok _ _ _ _ Hvo).
Qed.

(** C9: an operation of a type other than the four handled ones
    writes no row and raises nothing, and the loop goes on with the
    operations that follow. *)
Theorem unrecognized_skipped (ty : string) (rest : list dict) :
  op !! "type" = Some ty ->
  ty ∉ recognized ->
  loop_body chain rate op f = (f, Ok tt)
  /\ new_rows f (loop_body chain rate op) = []
  /\ for_each (loop_body chain rate) (op :: rest) f
     = for_each (loop_body chain rate) rest f.
Proof.
  intros Hty Hnot.
  pose proof (body_other ty Hty Hnot) as Hbody.
  split; [exact Hbody|]. split.
  - apply (new_rows_app f [] _ (Ok tt)). now rewrite app_nil_r.
  - simpl. unfold bind at 1. now rewrite Hbody.
Qed.

(** C1: a reward claim writes an Income row for the HIVE reward, one
    for the HBD reward and one for the converted VESTS reward, each
    only when its parsed value is greater than zero, in this order.
    A value of zero writes no row, nor does a VESTS reward of zero
    whatever the rate; three zero values write no row at all, and
    the rows number three at most. *)
Theorem claim_reward_rows (hive_amount hbd_amount vests_amount : Float64.float) :
  op !! "type" = Some "claim_reward_balance" ->
  parse_amount chain rate (get op "reward_hive" "0 HIVE") false = Ok hive_amount ->
  parse_amount chain rate (get op "reward_hbd" "0 HBD") false = Ok hbd_amount ->
  parse_amount chain rate (get op "reward_vests" "0 VESTS") true = Ok vests_amount ->
  let rows :=
    keep (Float64.gt0 hive_amount)
         (income_row time (Float64.repr hive_amount) "HIVE")
    ++ keep (Float64.gt0 hbd_amount)
         (income_row time (Float64.repr hbd_amount) "HBD")
    ++ keep (Float64.gt0 vests_amount)
         (income_row time (Float64.format_3f vests_amount) "HP") in
  loop_body chain rate op f = (f ++ rows, Ok tt)
  /\ new_rows f (loop_body chain rate op) = rows
  /\ (List.length rows <= 3)%nat
  /\ (Float64.is_zero hive_amount = true -> Float64.gt0 hive_amount = false)
  /\ (Float64.is_zero hbd_amount = true -> Float64.gt0 hbd_amount = false)
  /\ (Float64.is_zero vests_amount = true -> Float64.gt0 vests_amount = false)
  /\ (forall a x, Amount chain (get op "reward_vests" "0 VESTS") = Ok a ->
                  Beem.amount a = Ok x -> Float64.is_zero x = true ->
                  Float64.gt0 vests_amount = false)
  /\ (Float64.is_zero hive_amount = true ->
      Float64.is_zero hbd_amount = true ->
      Float64.is_zero vests_amount = true -> rows = []).
Proof.
  intros Hty Hh Hb Hv rows.
  assert (Hbody : loop_body chain rate op f = (f ++ rows, Ok tt))
    by now apply body_claim.
  split; [exact Hbody|]. split; [exact (new_rows_app _ _ _ _ Hbody)|]. split.
  - subst rows.
    destruct (Float64.gt0 hive_amount), (Float64.gt0 hbd_amount),
      (Float64.gt0 vests_amount); simpl; lia.
  - repeat split; try apply gt0_zero.
    + intros a x Ha Hx Zx. unfold parse_amount in Hv.
      rewrite Ha in Hv. cbn [rbind] in Hv. rewrite Hx in Hv.
      cbn [rbind] in Hv. injection Hv as <-. now apply gt0_mul_zero.
    + intros Zh Zb Zv. subst rows.
      now rewrite (gt0_zero _ Zh), (gt0_zero _ Zb), (gt0_zero _ Zv).
Qed.

(** C3: an interest payment, a filled conversion and a filled order
    each write exactly one row, whatever the amounts are, zero
    included; the category is Interest, Transaction and Trade. *)
Theorem single_row_operations :
  (forall interest_amount,
      op !! "type" = Some "interest" ->
      parse_amount chain rate (get op "interest" "0 HBD") false = Ok interest_amount ->
      loop_body chain rate op f
      = (f ++ [[time; "Interest"; Float64.repr interest_amount; "HBD";
                ""; ""; ""; ""; ""; ""]], Ok tt)
      /\ List.length (new_rows f (loop_body chain rate op)) = 1%nat)
  /\ (forall text_in text_out amount_in amount_out value_in value_out,
      op !! "type" = Some "fill_convert_request" ->
      op !! "amount_in" = Some text_in -> Amount chain text_in = Ok amount_in ->
      op !! "amount_out" = Some text_out -> Amount chain text_out = Ok amount_out ->
      Beem.amount amount_in = Ok value_in ->
      Beem.amount amount_out = Ok value_out ->
      loop_body chain rate op f
      = (f ++ [[time; "Transaction";
                Float64.repr value_in; Beem.symbol amount_in;
                Float64.repr value_out; Beem.symbol amount_out;
                ""; ""; "Hive Internal Market"; "Conversion"]], Ok tt)
      /\ List.length (new_rows f (loop_body chain rate op)) = 1%nat)
  /\ (forall text_in text_out current_pays open_pays value_in value_out,
      op !! "type" = Some "fill_order" ->
      op !! "current_pays" = Some text_in -> Amount chain text_in = Ok current_pays ->
      op !! "open_pays" = Some text_out -> Amount chain text_out = Ok open_pays ->
      Beem.amount current_pays = Ok value_in ->
      Beem.amount open_pays = Ok value_out ->
      loop_body chain rate op f
      = (f ++ [[time; "Trade";
                Float64.repr value_in; Beem.symbol current_pays;
                Float64.repr value_out; Beem.symbol open_pays;
                ""; ""; "Hive Internal Market"; "Trade"]], Ok tt)
      /\ List.length (new_rows f (loop_body chain rate op)) = 1%nat).
Proof.
  assert (Hone : forall row, loop_body chain rate op f = (f ++ [row], Ok tt) ->
                   loop_body chain rate op f = (f ++ [row], Ok tt)
                   /\ List.length (new_rows f (loop_body chain rate op)) = 1%nat).
  { intros row H. split; [exact H|]. now rewrite (new_rows_app _ _ _ _ H). }
  split; [|split].
  - intros x Hty Hx. apply Hone. now apply body_interest.
  - intros ti to ai ao vi vo Hty Hti Hai Hto Hao Hvi Hvo. apply Hone.
    eapply body_pair; eauto.
  - intros ti to ai ao vi vo Hty Hti Hai Hto Hao Hvi Hvo. apply Hone.
    eapply body_pair; eauto.
Qed.

End Iteration.

Lemma unrecognized_skipped_witness :
  loop_body hive_assets rate_example transfer_example [] = ([], Ok tt)
  /\ new_rows [] (loop_body hive_assets rate_example transfer_example) = []
  /\ for_each (loop_body hive_assets rate_example) [transfer_example; fill_order_example] []
     = for_each (loop_body hive_assets rate_example) [fill_order_example] [].
Proof.
  apply (unrecognized_skipped hive_assets rate_example transfer_example []
           "2023-08-09T10:11:12" (Datetime.mk_datetime 2023 8 9 10 11 12)
           eq_refl eq_refl "transfer" [fill_order_example] eq_refl).
  unfold recognized. intros H. repeat (apply elem_of_cons in H as [H|H]; [discriminate|]).
  now apply elem_of_nil in H.
Defined.

Lemma claim_reward_rows_witness :
  loop_body hive_assets rate_example reward_example []
  = ([["2023-06-15 09:30:00"; "Income"; "2.5"; "HBD"; ""; ""; ""; ""; ""; ""];
      ["2023-06-15 09:30:00"; "Income"; "2469.136"; "HP"; ""; ""; ""; ""; ""; ""]],
     Ok tt).
Proof.
  exact (proj1 (claim_reward_rows hive_assets rate_example reward_example []
                  "2023-06-15T09:30:00" (Datetime.mk_datetime 2023 6 15 9 30 0)
                  eq_refl eq_refl
                  (S754_zero false)
                  (Float64.of_scaled false 2500 (-3))
                  (Float64.mul (Float64.of_scaled false 1234567891 (-6)) rate_example)
                  eq_refl eq_refl eq_refl eq_refl)).
Defined.

Lemma single_row_operations_witness :
  loop_body hive_assets rate_example interest_example []
  = ([["2023-07-01 00:00:03"; "Interest"; "0.0"; "HBD"; ""; ""; ""; ""; ""; ""]],
     Ok tt)
  /\ List.length (new_rows [] (loop_body hive_assets rate_example interest_example)) = 1%nat.
Proof.
  exact (proj1 (single_row_operations hive_assets rate_example interest_example []
                  "2023-07-01T00:00:03" (Datetime.mk_datetime 2023 7 1 0 0 3)
                  eq_refl eq_refl)
               (S754_zero false) eq_refl eq_refl).
Defined.

(** ** Every way an iteration can end *)

Lemma getitem_ok (d : dict) (key v : string) : d !! key = Some v -> getitem d key = Ok v.
Proof. unfold getitem. now intros ->. Qed.

Lemma getitem_raise (d : dict) (key : string) :
  d !! key = None -> getitem d key = Raise (KeyError key).
Proof. unfold getitem. now intros ->. Qed.

Lemma rbind_ok {A B} (r : result A) (a : A) (k : A -> result B) :
  r = Ok a -> rbind r k = k a.
Proof. now intros ->. Qed.

Lemma rbind_raise {A B} (r : result A) (e : exn) (k : A -> result B) :
  r = Raise e -> rbind r k = Raise e.
Proof. now intros ->. Qed.

(** Run the statements of [loop_body] as far as the facts at hand tell
    how they end. *)
Ltac run_step :=
  first
    [ erewrite bind_lift_ok by
        first [ eassumption
              | apply getitem_ok; eassumption
              | erewrite rbind_ok by (apply getitem_ok; eassumption); eassumption ]
    | erewrite bind_lift_raise by
        first [ eassumption
              | apply getitem_raise; eassumption
              | apply rbind_raise; apply getitem_raise; eassumption
              | erewrite rbind_ok by (apply getitem_ok; eassumption); eassumption ] ].

Ltac run_body := unfold loop_body; repeat run_step.

(** An iteration that raised: it wrote nothing. *)
Ltac raised :=
  eexists [], (Raise _); rewrite app_nil_r;
  split; [run_body; cbn [String.eqb Ascii.eqb Bool.eqb]; repeat run_step; reflexivity
         | apply iter_raise].

Lemma loop_body_iteration chain rate op f :
  exists rows r,
    loop_body chain rate op f = (f ++ rows, r) /\ iteration chain rate op rows r.
Proof.
  destruct (op !! "timestamp") as [s|] eqn:Hs; [|raised].
  destruct (Datetime.strptime s) as [t|e] eqn:Ht; [|raised].
  destruct (op !! "type") as [ty|] eqn:Hty; [|raised].
  destruct (String.eqb_spec ty "claim_reward_balance") as [->|N1].
  { destruct (parse_amount chain rate (get op "reward_hive" "0 HIVE") false)
      as [h|e] eqn:Hh; [|raised].
    destruct (parse_amount chain rate (get op "reward_hbd" "0 HBD") false)
      as [b|e] eqn:Hb; [|raised].
    destruct (parse_amount chain rate (get op "reward_vests" "0 VESTS") true)
      as [v|e] eqn:Hv; [|raised].
    eexists _, _. split; [eapply body_claim; eassumption|].
    eapply iter_claim; eassumption. }
  destruct (String.eqb_spec ty "interest") as [->|N2].
  { destruct (parse_amount chain rate (get op "interest" "0 HBD") false)
      as [x|e] eqn:Hx; [|raised].
    eexists _, _. split; [eapply body_interest; eassumption|].
    eapply iter_interest; eassumption. }
  destruct (String.eqb_spec ty "fill_convert_request") as [->|N3].
  { destruct (op !! "amount_in") as [ti|] eqn:Hti; [|raised].
    destruct (Amount chain ti) as [ai|e] eqn:Hai; [|raised].
    destruct (op !! "amount_out") as [to|] eqn:Hto; [|raised].
    destruct (Amount chain to) as [ao|e] eqn:Hao; [|raised].
    destruct (Beem.amount ai) as [vi|e] eqn:Hvi; [|raised].
    destruct (Beem.amount ao) as [vo|e] eqn:Hvo; [|raised].
    eexists _, _. split.
    - eapply (body_pair chain rate op f s t Hs Ht "fill_convert_request");
        eauto.
    - eapply (iter_pair chain rate op s t "fill_convert_request"); eauto. }
  destruct (String.eqb_spec ty "fill_order") as [->|N4].
  { destruct (op !! "current_pays") as [ti|] eqn:Hti; [|raised].
    destruct (Amount chain ti) as [ai|e] eqn:Hai; [|raised].
    destruct (op !! "open_pays") as [to|] eqn:Hto; [|raised].
    destruct (Amount chain to) as [ao|e] eqn:Hao; [|raised].
    destruct (Beem.amount ai) as [vi|e] eqn:Hvi; [|raised].
    destruct (Beem.amount ao) as [vo|e] eqn:Hvo; [|raised].
    eexists _, _. split.
    - eapply (body_pair chain rate op f s t Hs Ht "fill_order"); eauto.
    - eapply (iter_pair chain rate op s t "fill_order"); eauto. }
  assert (Hnot : ty ∉ recognized).
  { unfold recognized. intros H.
    repeat (apply elem_of_cons in H as [H|H]; [congruence|]).
    now apply elem_of_nil in H. }
  exists [], (Ok tt). rewrite app_nil_r. split.
  - eapply body_other; eassumption.
  - eapply iter_other; eassumption.
Qed.

Lemma elem_of_keep (b : bool) (r row : list string) :
  row ∈ keep b r -> b = true /\ row = r.
Proof.
  destruct b; simpl; intros H.
  - apply elem_of_cons in H as [H|H]; [auto|]. now apply elem_of_nil in H.
  - now apply elem_of_nil in H.
Qed.

(** A row of an iteration, by the statement that wrote it. *)
Ltac row_cases Hin :=
  repeat first
    [ apply elem_of_nil in Hin; destruct Hin
    | apply elem_of_app in Hin as [Hin|Hin]
    | apply elem_of_keep in Hin as [? Hin]
    | apply elem_of_cons in Hin as [Hin|Hin] ].

Lemma new_rows_iteration chain rate op f :
  exists r, iteration chain rate op (new_rows f (loop_body chain rate op)) r
            /\ loop_body chain rate op f
               = (f ++ new_rows f (loop_body chain rate op), r).
Proof.
  destruct (loop_body_iteration chain rate op f) as (rows & r & Hbody & Hiter).
  exists r. now rewrite (new_rows_app _ _ _ _ Hbody).
Qed.

(** No iteration writes the header: the second column of its rows is
    never [Type]. *)
Lemma iteration_not_header chain rate op rows r row :
  iteration chain rate op rows r -> row ∈ rows -> row <> header.
Proof.
  intros Hiter Hin. destruct Hiter; row_cases Hin; subst;
    unfold income_row, header; congruence.
Qed.

(** ** The loop and the run *)

Lemma for_each_rows chain rate (ops : list dict) (f : file) :
  exists rows r,
    for_each (loop_body chain rate) ops f = (f ++ rows, r)
    /\ Forall (fun row => exists op rows' r',
                   op ∈ ops /\ iteration chain rate op rows' r' /\ row ∈ rows')
         rows.
Proof.
  revert f. induction ops as [|op ops IH]; intros f.
  - exists [], (Ok tt). rewrite app_nil_r. split; [reflexivity|constructor].
  - destruct (loop_body_iteration chain rate op f) as (rows1 & r1 & Hbody & Hiter).
    assert (H1 : Forall (fun row => exists o rows' r',
                   o ∈ op :: ops /\ iteration chain rate o rows' r' /\ row ∈ rows')
              rows1).
    { apply Forall_forall. intros row Hin. exists op, rows1, r1.
      split; [left|]. split; [exact Hiter|exact Hin]. }
    simpl. unfold bind at 1. rewrite Hbody. destruct r1 as [[]|e].
    + destruct (IH (f ++ rows1)) as (rows2 & r2 & Hrest & Hall).
      exists (rows1 ++ rows2), r2. rewrite Hrest, <- app_assoc.
      split; [reflexivity|]. apply Forall_app. split; [exact H1|].
      eapply Forall_impl; [exact Hall|].
      intros row (o & rows' & r' & Ho & Hi & Hr). exists o, rows', r'.
      split; [now right|auto].
    + exists rows1, (Raise e). split; [reflexivity|exact H1].
Qed.

Lemma main_rows chain props history rate :
  init_conversion_rate chain props = Ok rate ->
  exists rows r,
    main chain props history = (Some (header :: rows), r)
    /\ for_each (loop_body chain rate) history [header] = (header :: rows, r)
    /\ Forall (fun row => exists op rows' r',
                   op ∈ history /\ iteration chain rate op rows' r' /\ row ∈ rows')
         rows.
Proof.
  intros Hrate.
  destruct (for_each_rows chain rate history [header]) as (rows & r & Hloop & Hall).
  exists rows, r. unfold main. rewrite Hrate. unfold bind at 1. simpl.
  rewrite Hloop. repeat split; assumption.
Qed.

(** C5: the file starts with the header row of the ten column names,
    the header is written once (no later row is the header), and with
    no operation in the history the file is the header alone.  In the
    file the names are joined by the delimiter of [csv.writer], a
    comma, and the line is closed by carriage return and line feed. *)
Theorem header_once chain props history :
  header = ["Time"; "Type"; "In"; "In-Currency"; "Out"; "Out-Currency";
            "Fee"; "Fee-Currency"; "Market"; "Note"]
  /\ List.length header = 10%nat
  /\ Csv.line header
     = ("Time,Type,In,In-Currency,Out,Out-Currency,Fee,Fee-Currency,Market,Note" +:+ eol)
  /\ match main chain props history with
     | (Some f, _) =>
         exists rows, f = header :: rows /\ (header ∉ rows)
                      /\ Csv.text f = (Csv.line header +:+ Csv.text rows)
     | (None, r) => exists e, r = Raise e /\ init_conversion_rate chain props = Raise e
     end
  /\ match main chain props [] with
     | (Some f, r) => f = [header] /\ r = Ok tt /\ Csv.text f = Csv.line header
     | (None, _) => True
     end.
Proof.
  split; [reflexivity|]. split; [reflexivity|]. split; [reflexivity|]. split.
  - destruct (init_conversion_rate chain props) as [rate|e] eqn:Hrate.
    + destruct (main_rows chain props history rate Hrate)
        as (rows & r & Hmain & _ & Hall).
      rewrite Hmain. exists rows. split; [reflexivity|]. split; [|reflexivity].
      intros Hin. rewrite Forall_forall in Hall.
      destruct (Hall _ Hin) as (op & rows' & r' & _ & Hiter & Hrow).
      now apply (iteration_not_header _ _ _ _ _ _ Hiter Hrow).
    + unfold main. rewrite Hrate. now exists e.
  - unfold main. destruct (init_conversion_rate chain props); [|exact I].
    repeat split; reflexivity.
Qed.

(** ** Timestamps *)

Lemma digit_range (c : ascii) :
  Text.is_digit c = true -> 0 <= Text.digit_value c <= 9.
Proof.
  unfold Text.is_digit, Text.digit_value. intros H.
  apply andb_prop in H as [H1 H2]. apply Z.leb_le in H1, H2. lia.
Qed.

Lemma digit_char_value (c : ascii) : Text.digit_char (Text.digit_value c) = c.
Proof.
  unfold Text.digit_char, Text.digit_value, Text.code.
  replace (48 + (Z.of_nat (nat_of_ascii c) - 48)) with (Z.of_nat (nat_of_ascii c)) by lia.
  rewrite Nat2Z.id. apply ascii_nat_embedding.
Qed.

Lemma digit_values_range (v : Z) : 0 <= v <= 9 -> In v digit_values.
Proof.
  intros H.
  assert (v = 0 \/ v = 1 \/ v = 2 \/ v = 3 \/ v = 4 \/ v = 5 \/ v = 6 \/ v = 7
          \/ v = 8 \/ v = 9) as Hv by lia.
  unfold digit_values. simpl. intuition.
Qed.

Lemma zero_pad_two (a b : ascii) :
  Text.is_digit a = true -> Text.is_digit b = true ->
  Text.zero_pad 2 (field2 a b) = [a; b].
Proof.
  intros Ha Hb. unfold field2.
  replace [a; b]
    with [Text.digit_char (Text.digit_value a); Text.digit_char (Text.digit_value b)]
    by now rewrite !digit_char_value.
  apply digit_range, digit_values_range in Ha, Hb.
  revert Ha Hb. generalize (Text.digit_value a) (Text.digit_value b). intros va vb Ha Hb.
  assert (Hall : forallb (fun x => forallb (fun y =>
             bool_decide (Text.zero_pad 2 (10 * x + y)
                          = [Text.digit_char x; Text.digit_char y]))
             digit_values) digit_values = true) by (vm_compute; reflexivity).
  rewrite forallb_forall in Hall. specialize (Hall _ Ha).
  rewrite forallb_forall in Hall. specialize (Hall _ Hb).
  now apply bool_decide_eq_true in Hall.
Qed.

Lemma numeral_year (a b c d : ascii) :
  Text.is_digit a = true -> Text.is_digit b = true ->
  Text.is_digit c = true -> Text.is_digit d = true ->
  1 <= Text.digit_value a ->
  Text.numeral (100 * field2 a b + field2 c d) = [a; b; c; d].
Proof.
  intros Ha Hb Hc Hd H1. unfold field2.
  replace [a; b; c; d]
    with (map Text.digit_char [Text.digit_value a; Text.digit_value b;
                               Text.digit_value c; Text.digit_value d])
    by (simpl; now rewrite !digit_char_value).
  apply digit_range, digit_values_range in Ha, Hb, Hc, Hd.
  revert Ha Hb Hc Hd H1.
  generalize (Text.digit_value a) (Text.digit_value b)
    (Text.digit_value c) (Text.digit_value d).
  intros va vb vc vd Ha Hb Hc Hd H1.
  assert (Hall : forallb (fun w => forallb (fun x => forallb (fun y => forallb (fun z =>
             (w <? 1) ||
             bool_decide (Text.numeral (100 * (10 * w + x) + (10 * y + z))
                          = map Text.digit_char [w; x; y; z]))
             digit_values) digit_values) digit_values) digit_values = true)
    by (vm_compute; reflexivity).
  rewrite forallb_forall in Hall. specialize (Hall _ Ha).
  rewrite forallb_forall in Hall. specialize (Hall _ Hb).
  rewrite forallb_forall in Hall. specialize (Hall _ Hc).
  rewrite forallb_forall in Hall. specialize (Hall _ Hd).
  apply orb_prop in Hall as [Hall|Hall]; [apply Z.ltb_lt in Hall; lia|].
  now apply bool_decide_eq_true in Hall.
Qed.

Lemma seq_starts {A B} (r : Datetime.reader A) (k : A -> Datetime.reader B)
    (s rest : Text.chars) (a : A) (y : B * Text.chars) :
  starts (r s) (a, rest) -> starts (k a rest) y -> starts (Datetime.seq r k s) y.
Proof.
  intros [l1 H1] [l2 H2]. unfold Datetime.seq. rewrite H1. simpl. rewrite H2.
  eexists. reflexivity.
Qed.

Lemma lit_starts (c : ascii) (rest : Text.chars) :
  starts (Datetime.lit c (c :: rest)) (tt, rest).
Proof. unfold Datetime.lit. rewrite Ascii.eqb_refl. now eexists. Qed.

Lemma two_starts (P : Z -> Z -> bool) (a b : ascii) (rest : Text.chars) :
  Text.is_digit a = true -> Text.is_digit b = true ->
  P (Text.digit_value a) (Text.digit_value b) = true ->
  starts (Datetime.two P (a :: b :: rest)) (field2 a b, rest).
Proof. intros Ha Hb HP. unfold Datetime.two. rewrite Ha, Hb, HP. now eexists. Qed.

Lemma alt_starts_l {A} (r1 r2 : Datetime.reader A) (s : Text.chars) x :
  starts (r1 s) x -> starts (Datetime.alt r1 r2 s) x.
Proof. intros [l H]. unfold Datetime.alt. rewrite H. now eexists. Qed.

Lemma alt_starts_r {A} (r1 r2 : Datetime.reader A) (s : Text.chars) x :
  r1 s = [] -> starts (r2 s) x -> starts (Datetime.alt r1 r2 s) x.
Proof. intros H1 [l H]. unfold Datetime.alt. rewrite H1, H. now eexists. Qed.

Lemma two_fails (P : Z -> Z -> bool) (a b : ascii) (rest : Text.chars) :
  P (Text.digit_value a) (Text.digit_value b) = false ->
  Datetime.two P (a :: b :: rest) = [].
Proof.
  intros HP. unfold Datetime.two. rewrite HP.
  now rewrite andb_false_r.
Qed.

(** A field of two digits in the range of its pattern is read whole. *)
Ltac read_two Ha Hb :=
  repeat first
    [ apply two_starts; [exact Ha|exact Hb|lia]
    | apply alt_starts_l; apply two_starts; [exact Ha|exact Hb|lia]
    | apply alt_starts_r; [apply two_fails; lia|] ].

Section Fields.

Variables (a b : ascii) (rest : Text.chars).
Hypothesis Ha : Text.is_digit a = true.
Hypothesis Hb : Text.is_digit b = true.

Lemma read_Y_starts (c d : ascii) :
  Text.is_digit c = true -> Text.is_digit d = true ->
  starts (Datetime.read_Y (a :: b :: c :: d :: rest))
    (100 * field2 a b + field2 c d, rest).
Proof.
  intros Hc Hd. unfold Datetime.read_Y.
  eapply seq_starts; [now apply two_starts|].
  eapply seq_starts; [now apply two_starts|].
  now eexists.
Qed.

Lemma read_m_starts :
  1 <= field2 a b <= 12 ->
  starts (Datetime.read_m (a :: b :: rest)) (field2 a b, rest).
Proof.
  intros H. pose proof (digit_range a Ha). pose proof (digit_range b Hb).
  unfold field2 in H. unfold Datetime.read_m.
  destruct (Z.eq_dec (Text.digit_value a) 1); read_two Ha Hb.
Qed.

Lemma read_d_starts :
  1 <= field2 a b <= 31 ->
  starts (Datetime.read_d (a :: b :: rest)) (field2 a b, rest).
Proof.
  intros H. pose proof (digit_range a Ha). pose proof (digit_range b Hb).
  unfold field2 in H. unfold Datetime.read_d.
  destruct (Z.eq_dec (Text.digit_value a) 3);
    [|destruct (Z.eq_dec (Text.digit_value a) 0)]; read_two Ha Hb.
Qed.

Lemma read_H_starts :
  field2 a b <= 23 ->
  starts (Datetime.read_H (a :: b :: rest)) (field2 a b, rest).
Proof.
  intros H. pose proof (digit_range a Ha). pose proof (digit_range b Hb).
  unfold field2 in H. unfold Datetime.read_H.
  destruct (Z.eq_dec (Text.digit_value a) 2); read_two Ha Hb.
Qed.

Lemma read_M_starts :
  field2 a b <= 59 ->
  starts (Datetime.read_M (a :: b :: rest)) (field2 a b, rest).
Proof.
  intros H. pose proof (digit_range a Ha). pose proof (digit_range b Hb).
  unfold field2 in H. unfold Datetime.read_M. read_two Ha Hb.
Qed.

Lemma read_S_starts :
  field2 a b <= 59 ->
  starts (Datetime.read_S (a :: b :: rest)) (field2 a b, rest).
Proof.
  intros H. pose proof (digit_range a Ha). pose proof (digit_range b Hb).
  unfold field2 in H. unfold Datetime.read_S. read_two Ha Hb.
Qed.

End Fields.

Section FullWidth.

Variables y1 y2 y3 y4 m1 m2 d1 d2 h1 h2 n1 n2 s1 s2 : ascii.
Hypothesis Hfull : full_width y1 y2 y3 y4 m1 m2 d1 d2 h1 h2 n1 n2 s1 s2 = true.

Abbreviation t := (full_width_datetime y1 y2 y3 y4 m1 m2 d1 d2 h1 h2 n1 n2 s1 s2).

Lemma full_width_digits :
  Forall (fun c => Text.is_digit c = true)
    [y1; y2; y3; y4; m1; m2; d1; d2; h1; h2; n1; n2; s1; s2].
Proof.
  unfold full_width in Hfull. do 8 (apply andb_prop in Hfull as [Hfull _]).
  apply Forall_forall. intros c Hc. rewrite forallb_forall in Hfull.
  apply Hfull. now apply list_elem_of_In.
Qed.

Lemma strptime_full_width :
  Datetime.strptime (iso_timestamp y1 y2 y3 y4 m1 m2 d1 d2 h1 h2 n1 n2 s1 s2) = Ok t.
Proof.
  pose proof full_width_digits as Hd.
  repeat (apply Forall_cons in Hd as [? Hd]).
  unfold full_width in Hfull.
  repeat (apply andb_prop in Hfull as [Hfull ?]).
  assert (Hday : field2 d1 d2 <= 31).
  { assert (Datetime.days_in_month (100 * field2 y1 y2 + field2 y3 y4) (field2 m1 m2)
            <= 31).
    { unfold Datetime.days_in_month. repeat case_match; lia. }
    lia. }
  assert (Hread : starts
            (Datetime.read_iso
               [y1; y2; y3; y4; "-"%char; m1; m2; "-"%char; d1; d2; "T"%char;
                h1; h2; ":"%char; n1; n2; ":"%char; s1; s2])
            (t, [])).
  { unfold Datetime.read_iso.
    eapply seq_starts; [now apply read_Y_starts|].
    eapply seq_starts; [apply lit_starts|].
    eapply seq_starts; [apply read_m_starts; [assumption|assumption|lia]|].
    eapply seq_starts; [apply lit_starts|].
    eapply seq_starts; [apply read_d_starts; [assumption|assumption|lia]|].
    eapply seq_starts; [apply lit_starts|].
    eapply seq_starts; [apply read_H_starts; [assumption|assumption|lia]|].
    eapply seq_starts; [apply lit_starts|].
    eapply seq_starts; [apply read_M_starts; [assumption|assumption|lia]|].
    eapply seq_starts; [apply lit_starts|].
    eapply seq_starts; [apply read_S_starts; [assumption|assumption|lia]|].
    now eexists. }
  destruct Hread as [l Hl].
  unfold Datetime.strptime, iso_timestamp. rewrite of_string_to_string, Hl.
  assert (Hvalid : Datetime.valid t = true).
  { unfold Datetime.valid, full_width_datetime. cbn [Datetime.year Datetime.month Datetime.day
                                    Datetime.second].
    pose proof (digit_range y2 ltac:(assumption)).
    pose proof (digit_range y3 ltac:(assumption)).
    pose proof (digit_range y4 ltac:(assumption)).
    unfold field2 at 1 2. lia. }
  now rewrite Hvalid.
Qed.

Lemma strftime_full_width :
  Datetime.strftime t = sql_timestamp y1 y2 y3 y4 m1 m2 d1 d2 h1 h2 n1 n2 s1 s2.
Proof.
  pose proof full_width_digits as Hd.
  repeat (apply Forall_cons in Hd as [? Hd]).
  unfold full_width in Hfull.
  repeat (apply andb_prop in Hfull as [Hfull ?]).
  unfold Datetime.strftime, sql_timestamp, full_width_datetime.
  cbn [Datetime.year Datetime.month Datetime.day Datetime.hour Datetime.minute
         Datetime.second].
  rewrite numeral_year by (assumption || lia).
  now rewrite !zero_pad_two by assumption.
Qed.

End FullWidth.

(** C8: every row an iteration writes, whatever the kind of the
    operation, has empty Fee and Fee-Currency columns, and its first
    column is the timestamp of the operation, read by [strptime] and
    written back by [strftime]: for a timestamp [YYYY-MM-DDTHH:MM:SS]
    that is [YYYY-MM-DD HH:MM:SS]. *)
Theorem rows_fee_and_time chain rate op f row :
  row ∈ new_rows f (loop_body chain rate op) ->
  row !! 6%nat = Some "" /\ row !! 7%nat = Some ""
  /\ exists s t,
      op !! "timestamp" = Some s /\ Datetime.strptime s = Ok t
      /\ row !! 0%nat = Some (Datetime.strftime t)
      /\ forall y1 y2 y3 y4 m1 m2 d1 d2 h1 h2 n1 n2 s1 s2,
          s = iso_timestamp y1 y2 y3 y4 m1 m2 d1 d2 h1 h2 n1 n2 s1 s2 ->
          full_width y1 y2 y3 y4 m1 m2 d1 d2 h1 h2 n1 n2 s1 s2 = true ->
          row !! 0%nat
          = Some (sql_timestamp y1 y2 y3 y4 m1 m2 d1 d2 h1 h2 n1 n2 s1 s2).
Proof.
  intros Hin.
  destruct (new_rows_iteration chain rate op f) as (r & Hiter & _).
  assert (Hshape : exists s t rest,
             op !! "timestamp" = Some s /\ Datetime.strptime s = Ok t
             /\ row = Datetime.strftime t :: rest
             /\ rest !! 5%nat = Some "" /\ rest !! 6%nat = Some "").
  { destruct Hiter; row_cases Hin; subst; eexists _, _, _;
      (split; [eassumption|]); (split; [eassumption|]);
      (split; [reflexivity|]); split; reflexivity. }
  destruct Hshape as (s & t & rest & Hs & Ht & -> & H6 & H7).
  split; [exact H6|]. split; [exact H7|].
  exists s, t. repeat split; try assumption.
  intros y1 y2 y3 y4 m1 m2 d1 d2 h1 h2 n1 n2 s1 s2 -> Hfull.
  rewrite (strptime_full_width _ _ _ _ _ _ _ _ _ _ _ _ _ _ Hfull) in Ht.
  injection Ht as <-. simpl.
  now rewrite (strftime_full_width _ _ _ _ _ _ _ _ _ _ _ _ _ _ Hfull).
Qed.

Lemma rows_fee_and_time_witness :
  let row := ["2023-05-01 12:00:00"; "Trade"; "1.0"; "HIVE"; "0.5"; "HBD";
              ""; ""; "Hive Internal Market"; "Trade"] in
  row !! 6%nat = Some "" /\ row !! 7%nat = Some ""
  /\ exists s t,
      fill_order_example !! "timestamp" = Some s /\ Datetime.strptime s = Ok t
      /\ row !! 0%nat = Some (Datetime.strftime t)
      /\ forall y1 y2 y3 y4 m1 m2 d1 d2 h1 h2 n1 n2 s1 s2,
          s = iso_timestamp y1 y2 y3 y4 m1 m2 d1 d2 h1 h2 n1 n2 s1 s2 ->
          full_width y1 y2 y3 y4 m1 m2 d1 d2 h1 h2 n1 n2 s1 s2 = true ->
          row !! 0%nat
          = Some (sql_timestamp y1 y2 y3 y4 m1 m2 d1 d2 h1 h2 n1 n2 s1 s2).
Proof.
  apply (rows_fee_and_time hive_assets rate_example fill_order_example []).
  vm_compute. apply list_elem_of_here.
Defined.

(** ** Numerals and the [.3f] format *)

Lemma digit_char_is_digit (n : Z) : Text.is_digit (Text.digit_char (n mod 10)) = true.
Proof.
  assert (H : In (n mod 10) digit_values)
    by (apply digit_values_range; pose proof (Z.mod_pos_bound n 10); lia).
  assert (Hall : forallb (fun v => Text.is_digit (Text.digit_char v)) digit_values = true)
    by reflexivity.
  rewrite forallb_forall in Hall. now apply Hall.
Qed.

Lemma numeral_go_digits (fuel : nat) (n : Z) (acc : Text.chars) :
  forallb Text.is_digit acc = true ->
  forallb Text.is_digit (Text.numeral_go fuel n acc) = true.
Proof.
  revert n acc. induction fuel as [|fuel IH]; intros n acc Hacc; [exact Hacc|].
  simpl. assert (Hacc' : forallb Text.is_digit (Text.digit_char (n mod 10) :: acc) = true).
  { simpl. now rewrite digit_char_is_digit. }
  destruct (n <? 10); [exact Hacc'|]. now apply IH.
Qed.

Lemma numeral_go_nonempty (fuel : nat) (n : Z) (acc : Text.chars) :
  acc <> [] -> Text.numeral_go fuel n acc <> [].
Proof.
  revert n acc. induction fuel as [|fuel IH]; intros n acc Hacc; [exact Hacc|].
  simpl. destruct (n <? 10); [discriminate|]. now apply IH.
Qed.

Lemma numeral_digits (n : Z) : forallb Text.is_digit (Text.numeral n) = true.
Proof. now apply numeral_go_digits. Qed.

Lemma numeral_nonempty (n : Z) : Text.numeral n <> [].
Proof.
  unfold Text.numeral. simpl. destruct (n <? 10); [discriminate|].
  now apply numeral_go_nonempty.
Qed.

(** Below a thousand [zero_pad 3] gives three digits exactly. *)
Lemma zero_pad_three (n : Z) :
  0 <= n < 1000 ->
  exists a b c, Text.zero_pad 3 n = [a; b; c]
                /\ Text.is_digit a && Text.is_digit b && Text.is_digit c = true.
Proof.
  intros Hn.
  pose (ok := fun k : nat =>
          match Text.zero_pad 3 (Z.of_nat k) with
          | [a; b; c] => Text.is_digit a && Text.is_digit b && Text.is_digit c
          | _ => false
          end).
  assert (Hall : forallb ok (List.seq 0 1000) = true) by (vm_compute; reflexivity).
  rewrite forallb_forall in Hall.
  specialize (Hall (Z.to_nat n)). unfold ok in Hall. rewrite Z2Nat.id in Hall by lia.
  assert (Hin : In (Z.to_nat n) (List.seq 0 1000)) by (apply in_seq; lia).
  specialize (Hall Hin).
  destruct (Text.zero_pad 3 n) as [|a [|b [|c [|]]]]; try discriminate.
  now exists a, b, c.
Qed.

Lemma format_3f_positive (m : positive) (e : Z) :
  three_decimals (Float64.format_3f (S754_finite false m e)) = true.
Proof.
  unfold three_decimals, Float64.format_3f, Float64.sign_text.
  rewrite of_string_to_string. cbn [app].
  set (t := Float64.round_half_even _).
  destruct (zero_pad_three (t mod 1000)) as (a & b & c & -> & Hd);
    [apply Z.mod_pos_bound; lia|].
  apply andb_prop in Hd as [Hd Hc]. apply andb_prop in Hd as [Ha Hb].
  rewrite rev_app_distr. cbn [rev app]. rewrite Ascii.eqb_refl, Ha, Hb, Hc. cbn [andb].
  apply andb_true_intro. split.
  - apply forallb_forall. intros x Hx. apply in_rev in Hx.
    pose proof (numeral_digits (t / 1000)) as Hall.
    rewrite forallb_forall in Hall. now apply Hall.
  - apply negb_true_iff, bool_decide_eq_false. intros Hrev.
    apply (numeral_nonempty (t / 1000)).
    rewrite <- (rev_involutive (Text.numeral (t / 1000))). now rewrite Hrev.
Qed.

Lemma parse_amount_inv chain rate text (is_vests : bool) v :
  parse_amount chain rate text is_vests = Ok v ->
  exists a x, Amount chain text = Ok a /\ Beem.amount a = Ok x
              /\ v = if is_vests then Float64.mul x rate else x.
Proof.
  unfold parse_amount. intros H.
  destruct (Amount chain text) as [a|] eqn:Ha; [|discriminate].
  cbn [rbind] in H. destruct (Beem.amount a) as [x|] eqn:Hx; [|discriminate].
  cbn [rbind] in H. exists a, x. split; [reflexivity|]. split; [exact Hx|].
  destruct is_vests; now injection H as <-.
Qed.

(** The kind of the operation tells which case of [iteration] applies. *)
Ltac wrong_kind :=
  match goal with
  | H : ?op !! "type" = Some ?a, H' : ?op !! "type" = Some ?b |- _ =>
      rewrite H in H'; first [discriminate H' | injection H' as H'; subst]
  end;
  try match goal with
    | H : _ ∉ recognized |- _ => exfalso; apply H; unfold recognized; set_solver
    | H : _ \/ _ |- _ => destruct H as [H|H]; discriminate H
    end.

(** C6, as the script runs it: in a reward claim, the row of the share
    units (currency HP) carries the converted amount in the [.3f]
    format.  That text is a run of digits, a point and exactly three
    digits when the converted amount is finite, and the word [inf]
    when the conversion went over the largest float. *)
Theorem hp_row_three_decimals chain rate op f row :
  op !! "type" = Some "claim_reward_balance" ->
  row ∈ new_rows f (loop_body chain rate op) ->
  row !! 3%nat = Some "HP" ->
  exists vests_amount,
    parse_amount chain rate (get op "reward_vests" "0 VESTS") true = Ok vests_amount
    /\ Float64.gt0 vests_amount = true
    /\ row !! 2%nat = Some (Float64.format_3f vests_amount)
    /\ (if Float64.is_finite vests_amount
        then three_decimals (Float64.format_3f vests_amount) = true
        else Float64.format_3f vests_amount = "inf").
Proof.
  intros Hty Hin Hcur.
  destruct (new_rows_iteration chain rate op f) as (r & Hiter & _).
  destruct Hiter; row_cases Hin; subst; try discriminate Hcur; try wrong_kind.
  exists vests_amount. repeat split; try assumption.
  destruct (Float64.is_finite vests_amount) eqn:Hfin.
  - destruct (gt0_finite vests_amount) as (m & e & ->); try assumption.
    apply format_3f_positive.
  - now apply format_3f_infinite.
Qed.

Lemma hp_row_three_decimals_witness :
  exists vests_amount,
    parse_amount hive_assets rate_example (get reward_example "reward_vests" "0 VESTS") true
    = Ok vests_amount
    /\ Float64.gt0 vests_amount = true
    /\ ["2023-06-15 09:30:00"; "Income"; "2469.136"; "HP"; ""; ""; ""; ""; ""; ""]
         !! 2%nat = Some (Float64.format_3f vests_amount)
    /\ (if Float64.is_finite vests_amount
        then three_decimals (Float64.format_3f vests_amount) = true
        else Float64.format_3f vests_amount = "inf").
Proof.
  apply (hp_row_three_decimals hive_assets rate_example reward_example []).
  - reflexivity.
  - vm_compute. apply list_elem_of_further, list_elem_of_here.
  - reflexivity.
Defined.

(** A reward of 1e308 VESTS at the rate 2.0 converts to the float
    infinity, which is above zero: the claim writes its HP row, and the
    In column of that row is [inf], a text with no decimal point and
    no digit. *)
Lemma hp_row_three_decimals_refuted :
  new_rows [] (loop_body hive_assets rate_example overflow_reward_example)
  = [["2023-06-15 09:30:00"; "Income"; "inf"; "HP"; ""; ""; ""; ""; ""; ""]]
  /\ three_decimals "inf" = false.
Proof. split; vm_compute; reflexivity. Qed.

(** C10: the In-Currency column is a literal of the script.  An
    interest row says HBD and the rows of a reward claim say HIVE, HBD
    and HP, by the field each amount was read from; the symbol written
    in the amount text is parsed and then left aside. *)
Theorem currency_literals chain rate op f row :
  row ∈ new_rows f (loop_body chain rate op) ->
  (op !! "type" = Some "interest" ->
   exists a x,
     Amount chain (get op "interest" "0 HBD") = Ok a /\ Beem.amount a = Ok x
     /\ row !! 2%nat = Some (Float64.repr x) /\ row !! 3%nat = Some "HBD")
  /\ (op !! "type" = Some "claim_reward_balance" ->
      exists a x,
        Beem.amount a = Ok x
        /\ ((Amount chain (get op "reward_hive" "0 HIVE") = Ok a
             /\ row !! 2%nat = Some (Float64.repr x)
             /\ row !! 3%nat = Some "HIVE")
            \/ (Amount chain (get op "reward_hbd" "0 HBD") = Ok a
                /\ row !! 2%nat = Some (Float64.repr x)
                /\ row !! 3%nat = Some "HBD")
            \/ (Amount chain (get op "reward_vests" "0 VESTS") = Ok a
                /\ row !! 2%nat = Some (Float64.format_3f (Float64.mul x rate))
                /\ row !! 3%nat = Some "HP"))).
Proof.
  intros Hin.
  destruct (new_rows_iteration chain rate op f) as (r & Hiter & _).
  split; intros Hty.
  - destruct Hiter; row_cases Hin; subst; try wrong_kind.
    match goal with H : parse_amount _ _ _ _ = _ |- _ =>
      destruct (parse_amount_inv _ _ _ _ _ H) as (a & x & Ha & Hx & ->) end.
    exists a, x. repeat split; try assumption; reflexivity.
  - destruct Hiter; try wrong_kind; [row_cases Hin|].
    repeat match goal with H : parse_amount _ _ _ _ = _ |- _ =>
      let a := fresh "a" in let x := fresh "x" in
      destruct (parse_amount_inv _ _ _ _ _ H) as (a & x & ? & ? & ->); clear H end.
    row_cases Hin; subst; eexists _, _; (split; [|]).
    2: left; split; [eassumption|split; reflexivity].
    1: eassumption.
    2: right; left; split; [eassumption|split; reflexivity].
    1: eassumption.
    2: right; right; split; [eassumption|split; reflexivity].
    eassumption.
Qed.

Lemma currency_literals_witness :
  (interest_example !! "type" = Some "interest" ->
   exists a x,
     Amount hive_assets (get interest_example "interest" "0 HBD") = Ok a
     /\ Beem.amount a = Ok x
     /\ ["2023-07-01 00:00:03"; "Interest"; "0.0"; "HBD"; ""; ""; ""; ""; ""; ""]
          !! 2%nat = Some (Float64.repr x)
     /\ ["2023-07-01 00:00:03"; "Interest"; "0.0"; "HBD"; ""; ""; ""; ""; ""; ""]
          !! 3%nat = Some "HBD")
  /\ Amount hive_assets (get interest_example "interest" "0 HBD")
     = Ok (Beem.mk_Amount (Decimal.Finite false 0 (-3)) "HIVE").
Proof.
  split; [|reflexivity].
  apply (currency_literals hive_assets rate_example interest_example []).
  vm_compute. apply list_elem_of_here.
Defined.

(** ** The fill-order scenario *)

(** C7, as the script runs it: the operation of type [fill_order] with
    [current_pays] 1.000 HIVE, [open_pays] 0.500 HBD and timestamp
    2023-05-01T12:00:00 writes the one row 2023-05-01 12:00:00, Trade,
    1.0, HIVE, 0.5, HBD, two empty fee fields, Hive Internal Market,
    Trade.  The amounts are floats in their default format: the
    trailing zeros of the texts are gone. *)
Theorem fill_order_scenario (rate : Float64.float) (f : file) :
  loop_body hive_assets rate fill_order_example f
  = (f ++ [["2023-05-01 12:00:00"; "Trade"; "1.0"; "HIVE"; "0.5"; "HBD";
            ""; ""; "Hive Internal Market"; "Trade"]], Ok tt).
Proof.
  exact (body_pair hive_assets rate fill_order_example f
           "2023-05-01T12:00:00" (Datetime.mk_datetime 2023 5 1 12 0 0)
           eq_refl eq_refl
           "fill_order" "current_pays" "open_pays" "Trade" "Trade"
           "1.000 HIVE" "0.500 HBD"
           (Beem.mk_Amount (Decimal.Finite false 1000 (-3)) "HIVE")
           (Beem.mk_Amount (Decimal.Finite false 500 (-3)) "HBD")
           (Float64.of_scaled false 1000 (-3)) (Float64.of_scaled false 500 (-3))
           (or_intror eq_refl) eq_refl eq_refl eq_refl eq_refl eq_refl eq_refl eq_refl).
Qed.

(** The row of the scenario as the specification prints it, with the
    amounts on three decimals, is not the row the script writes. *)
Lemma fill_order_scenario_three_decimals_refuted :
  bool_decide
    (new_rows [] (loop_body hive_assets rate_example fill_order_example)
     = [["2023-05-01 12:00:00"; "Trade"; "1.000"; "HIVE"; "0.500"; "HBD";
         ""; ""; "Hive Internal Market"; "Trade"]])
  = false.
Proof. vm_compute. reflexivity. Qed.

(** ** The conversion rate *)

Lemma get_insert_ne (op : dict) (key k s fallback : string) :
  key <> k -> get (<[key := s]> op) k fallback = get op k fallback.
Proof. intros H. unfold get. now rewrite lookup_insert_ne. Qed.

Lemma getitem_insert_ne (op : dict) (key k s : string) :
  key <> k -> getitem (<[key := s]> op) k = getitem op k.
Proof. intros H. unfold getitem. now rewrite lookup_insert_ne. Qed.

Lemma getitem_insert_eq (op : dict) (key s : string) :
  getitem (<[key := s]> op) key = Ok s.
Proof. unfold getitem. now rewrite lookup_insert_eq. Qed.

(** The timestamp of an operation reaches the first column of its rows
    and nothing else: with another timestamp the iteration ends the
    same way and writes the same rows but for that column. *)
Lemma timestamp_only_dates chain rate (op : dict) f s1 s2 t1 t2 :
  Datetime.strptime s1 = Ok t1 -> Datetime.strptime s2 = Ok t2 ->
  snd (loop_body chain rate (<["timestamp" := s1]> op) f)
  = snd (loop_body chain rate (<["timestamp" := s2]> op) f)
  /\ map (drop 1) (new_rows f (loop_body chain rate (<["timestamp" := s1]> op)))
     = map (drop 1) (new_rows f (loop_body chain rate (<["timestamp" := s2]> op))).
Proof.
  intros H1 H2. unfold new_rows, loop_body.
  rewrite !getitem_insert_eq. cbn [rbind]. rewrite H1, H2.
  rewrite !getitem_insert_ne, !get_insert_ne by discriminate.
  unfold bind, lift, when, writerow, ret.
  destruct (getitem op "type") as [ty|]; [|split; reflexivity].
  repeat case_match; simplify_eq; simpl; (split; [reflexivity|]);
    rewrite <- ?app_assoc, ?drop_app_length; reflexivity.
Qed.

(** C4: the rate is total vesting fund over total vesting shares,
    computed before the file is opened; the division goes through when
    the shares are greater than zero (with zero shares it raises and
    no file is written).  The whole loop runs with this one value:
    every call of [parse_amount] for VESTS multiplies by it, and the
    timestamp of an operation changes nothing in its rows but the
    first column. *)
Theorem conversion_rate_once chain (props : dict) (history : list dict)
    (text_fund text_shares : string) (fund shares : Beem.Amount)
    (total_vesting_fund_hive total_vesting_shares : Float64.float) :
  props !! "total_vesting_fund_hive" = Some text_fund ->
  Amount chain text_fund = Ok fund ->
  Beem.amount fund = Ok total_vesting_fund_hive ->
  props !! "total_vesting_shares" = Some text_shares ->
  Amount chain text_shares = Ok shares ->
  Beem.amount shares = Ok total_vesting_shares ->
  let conversion_rate :=
    SFdiv Float64.prec Float64.emax total_vesting_fund_hive total_vesting_shares in
  (Float64.gt0 total_vesting_shares = true ->
   init_conversion_rate chain props = Ok conversion_rate
   /\ exists rows r,
       main chain props history = (Some (header :: rows), r)
       /\ for_each (loop_body chain conversion_rate) history [header]
          = (header :: rows, r))
  /\ (Float64.is_zero total_vesting_shares = true ->
      init_conversion_rate chain props = Raise ZeroDivisionError
      /\ main chain props history = (None, Raise ZeroDivisionError))
  /\ (forall text v,
         parse_amount chain conversion_rate text true = Ok v ->
         exists a x, Amount chain text = Ok a /\ Beem.amount a = Ok x
                     /\ v = Float64.mul x conversion_rate)
  /\ (forall op f s1 s2 t1 t2,
         Datetime.strptime s1 = Ok t1 -> Datetime.strptime s2 = Ok t2 ->
         snd (loop_body chain conversion_rate (<["timestamp" := s1]> op) f)
         = snd (loop_body chain conversion_rate (<["timestamp" := s2]> op) f)
         /\ map (drop 1)
              (new_rows f (loop_body chain conversion_rate (<["timestamp" := s1]> op)))
            = map (drop 1)
                (new_rows f (loop_body chain conversion_rate (<["timestamp" := s2]> op)))).
Proof.
  intros Hf Haf HF Hs Has HS rate.
  assert (Hinit : init_conversion_rate chain props
                  = Float64.truediv total_vesting_fund_hive total_vesting_shares).
  { unfold init_conversion_rate.
    rewrite (getitem_ok _ _ _ Hf). cbn [rbind]. rewrite Haf. cbn [rbind].
    rewrite HF. cbn [rbind].
    rewrite (getitem_ok _ _ _ Hs). cbn [rbind]. rewrite Has. cbn [rbind].
    rewrite HS. reflexivity. }
  split; [|split; [|split]].
  - intros Hpos.
    assert (Hrate : init_conversion_rate chain props = Ok rate).
    { rewrite Hinit. unfold Float64.truediv.
      destruct total_vesting_shares; try discriminate Hpos; reflexivity. }
    split; [exact Hrate|].
    destruct (main_rows chain props history rate Hrate) as (rows & r & Hmain & Hloop & _).
    now exists rows, r.
  - intros Hzero.
    assert (Hrate : init_conversion_rate chain props = Raise ZeroDivisionError).
    { rewrite Hinit. unfold Float64.truediv. now rewrite Hzero. }
    split; [exact Hrate|]. unfold main. now rewrite Hrate.
  - intros text v Hv. exact (parse_amount_inv _ _ _ _ _ Hv).
  - intros op f s1 s2 t1 t2. apply timestamp_only_dates.
Qed.

Lemma conversion_rate_once_witness :
  init_conversion_rate hive_assets props_example
  = Ok (SFdiv Float64.prec Float64.emax
          (Float64.of_scaled false 190000000000 (-3))
          (Float64.of_scaled false 380000000000000000 (-6)))
  /\ Float64.repr (SFdiv Float64.prec Float64.emax
                     (Float64.of_scaled false 190000000000 (-3))
                     (Float64.of_scaled false 380000000000000000 (-6)))
     = "0.0005".
Proof.
  split; [|vm_compute; reflexivity].
  apply (conversion_rate_once hive_assets props_example [reward_example]
           "190000000.000 HIVE" "380000000000.000000 VESTS"
           (Beem.mk_Amount (Decimal.Finite false 190000000000 (-3)) "HIVE")
           (Beem.mk_Amount (Decimal.Finite false 380000000000000000 (-6)) "VESTS")
           (Float64.of_scaled false 190000000000 (-3))
           (Float64.of_scaled false 380000000000000000 (-6))
           eq_refl eq_refl eq_refl eq_refl eq_refl eq_refl).
  reflexivity.
Defined.

(** ** What the loop keeps, whatever the operations *)

(** An iteration only appends: the rows in the file stay as they are,
    and what the operation adds and how it ends do not depend on them. *)
Lemma loop_body_frame chain rate op f :
  loop_body chain rate op f
  = (f ++ rows_of chain rate op, outcome chain rate op).
Proof.
  unfold rows_of, outcome, loop_body, bind, lift, when, writerow, ret.
  repeat case_match; simplify_eq; simpl;
    rewrite <- ?app_assoc, ?app_nil_r; reflexivity.
Qed.

(** An iteration that raises has written nothing. *)
Lemma raised_no_rows chain rate op e :
  outcome chain rate op = Raise e -> rows_of chain rate op = [].
Proof.
  unfold outcome, rows_of. intros He.
  destruct (loop_body_iteration chain rate op []) as (rows & r & Hbody & Hiter).
  rewrite Hbody in *. simpl in *. subst r. now inversion Hiter.
Qed.

Lemma rows_of_at_most_three chain rate op :
  (List.length (rows_of chain rate op) <= 3)%nat.
Proof.
  unfold rows_of.
  destruct (loop_body_iteration chain rate op []) as (rows & r & Hbody & Hiter).
  rewrite Hbody. simpl. destruct Hiter; simpl; try lia.
  destruct (Float64.gt0 hive_amount), (Float64.gt0 hbd_amount),
    (Float64.gt0 vests_amount); simpl; lia.
Qed.

(** The loop, operation by operation: the rows of the operations that
    ran to their end, in the order of the history, and the first
    exception. *)
Lemma for_each_completed chain rate (ops : list dict) (f : file) :
  for_each (loop_body chain rate) ops f
  = (f ++ concat (map (rows_of chain rate) (completed chain rate ops)),
     first_raise chain rate ops).
Proof.
  revert f. induction ops as [|op ops IH]; intros f.
  - simpl. unfold ret. now rewrite app_nil_r.
  - simpl. unfold bind at 1. rewrite loop_body_frame.
    destruct (outcome chain rate op) as [[]|e] eqn:Hop.
    + rewrite IH. simpl. now rewrite <- app_assoc.
    + rewrite (raised_no_rows _ _ _ _ Hop). simpl. now rewrite !app_nil_r.
Qed.

Lemma completed_all chain rate (ops : list dict) :
  Forall (fun op => outcome chain rate op = Ok tt) ops ->
  completed chain rate ops = ops /\ first_raise chain rate ops = Ok tt.
Proof.
  induction 1 as [|op ops Hop _ [IH1 IH2]]; [split; reflexivity|].
  simpl. rewrite Hop. now rewrite IH1, IH2.
Qed.

Lemma completed_until chain rate (before after : list dict) (op : dict) (e : exn) :
  Forall (fun op => outcome chain rate op = Ok tt) before ->
  outcome chain rate op = Raise e ->
  completed chain rate (before ++ op :: after) = before
  /\ first_raise chain rate (before ++ op :: after) = Raise e.
Proof.
  intros Hall Hop. induction Hall as [|o before Ho _ [IH1 IH2]].
  - simpl. now rewrite Hop.
  - simpl. rewrite Ho. now rewrite IH1, IH2.
Qed.

Lemma completed_length chain rate (ops : list dict) :
  (List.length (completed chain rate ops) <= List.length ops)%nat.
Proof.
  induction ops as [|op ops IH]; simpl; [lia|].
  destruct (outcome chain rate op); simpl; lia.
Qed.

Lemma main_completed chain props history rate :
  init_conversion_rate chain props = Ok rate ->
  main chain props history
  = (Some (header :: concat (map (rows_of chain rate) (completed chain rate history))),
     first_raise chain rate history).
Proof.
  intros Hrate. unfold main. rewrite Hrate. unfold bind at 1. simpl.
  now rewrite for_each_completed.
Qed.

(** X1: an iteration that raises leaves the file as it found it.  All
    the fields of an operation are read before its first row is
    written, so no operation is ever written in part. *)
Theorem iteration_all_or_nothing chain rate op f e :
  snd (loop_body chain rate op f) = Raise e ->
  fst (loop_body chain rate op f) = f
  /\ new_rows f (loop_body chain rate op) = [].
Proof.
  rewrite loop_body_frame. simpl. intros He.
  rewrite (raised_no_rows _ _ _ _ He), app_nil_r.
  split; [reflexivity|]. unfold new_rows. rewrite loop_body_frame. simpl.
  rewrite (raised_no_rows _ _ _ _ He), app_nil_r. apply drop_all.
Qed.

Lemma iteration_all_or_nothing_witness :
  fst (loop_body hive_assets rate_example broken_reward_example [header]) = [header]
  /\ new_rows [header] (loop_body hive_assets rate_example broken_reward_example) = [].
Proof.
  apply (iteration_all_or_nothing hive_assets rate_example broken_reward_example
           [header] ValueError).
  vm_compute. reflexivity.
Defined.

(** X2: the file only grows.  An iteration, and the whole loop, keep
    the rows they find and append to them, and what they append and how
    they end is the same whatever the file holds. *)
Theorem file_only_grows chain rate op (ops : list dict) f :
  loop_body chain rate op f
  = (f ++ fst (loop_body chain rate op []), snd (loop_body chain rate op []))
  /\ for_each (loop_body chain rate) ops f
     = (f ++ fst (for_each (loop_body chain rate) ops []),
        snd (for_each (loop_body chain rate) ops [])).
Proof.
  split; [apply loop_body_frame|].
  now rewrite (for_each_completed _ _ _ f), (for_each_completed _ _ _ []).
Qed.

(** X3: a run writes three rows at most for each operation of the
    history, after the header. *)
Theorem rows_bounded_by_history chain props history :
  match main chain props history with
  | (Some f, _) => (List.length f <= 1 + 3 * List.length history)%nat
  | (None, _) => True
  end.
Proof.
  destruct (init_conversion_rate chain props) as [rate|e] eqn:Hrate.
  - rewrite (main_completed _ _ _ _ Hrate). simpl.
    pose proof (completed_length chain rate history) as Hlen.
    assert (Hsum : forall l,
               (List.length (concat (map (rows_of chain rate) l)) <= 3 * List.length l)%nat).
    { induction l as [|o l IH]; simpl; [lia|].
      rewrite length_app. pose proof (rows_of_at_most_three chain rate o). lia. }
    specialize (Hsum (completed chain rate history)). lia.
  - unfold main. now rewrite Hrate.
Qed.

(** X4: when every operation of the history runs to its end, the file
    is the header followed by the rows of the first operation, then
    those of the second, and so on in the order of the history, and
    the run ends without exception. *)
Theorem rows_in_history_order chain props history rate :
  init_conversion_rate chain props = Ok rate ->
  Forall (fun op => snd (loop_body chain rate op []) = Ok tt) history ->
  main chain props history
  = (Some (header :: concat (map (fun op => fst (loop_body chain rate op [])) history)),
     Ok tt).
Proof.
  intros Hrate Hall. rewrite (main_completed _ _ _ _ Hrate).
  destruct (completed_all chain rate history Hall) as [-> ->]. reflexivity.
Qed.

Lemma rows_in_history_order_witness :
  main hive_assets props_example [reward_example; transfer_example; fill_order_example]
  = (Some (header :: concat (map (fun op => fst (loop_body hive_assets
                    (SFdiv Float64.prec Float64.emax
                       (Float64.of_scaled false 190000000000 (-3))
                       (Float64.of_scaled false 380000000000000000 (-6))) op []))
                    [reward_example; transfer_example; fill_order_example])),
     Ok tt).
Proof.
  apply (rows_in_history_order hive_assets props_example).
  - reflexivity.
  - repeat (constructor; [vm_compute; reflexivity|]). constructor.
Defined.

(** X5: the first operation that raises ends the run with its
    exception.  The rows of the operations before it stay in the file,
    it adds none, and the operations after it are not looked at. *)
Theorem run_stops_at_first_exception chain props rate
    (before after : list dict) (op : dict) (e : exn) :
  init_conversion_rate chain props = Ok rate ->
  Forall (fun op => snd (loop_body chain rate op []) = Ok tt) before ->
  snd (loop_body chain rate op []) = Raise e ->
  main chain props (before ++ op :: after)
  = (Some (header :: concat (map (fun op => fst (loop_body chain rate op [])) before)),
     Raise e)
  /\ main chain props (before ++ op :: after)
     = (fst (main chain props before), Raise e).
Proof.
  intros Hrate Hall Hop.
  rewrite (main_completed _ _ _ _ Hrate).
  destruct (completed_until chain rate before after op e Hall Hop) as [-> ->].
  split; [reflexivity|].
  rewrite (main_completed _ _ _ _ Hrate).
  destruct (completed_all chain rate before Hall) as [-> _]. reflexivity.
Qed.

Lemma run_stops_at_first_exception_witness :
  main hive_assets props_example
    ([fill_order_example] ++ broken_reward_example :: [reward_example])
  = (Some [header;
           ["2023-05-01 12:00:00"; "Trade"; "1.0"; "HIVE"; "0.5"; "HBD";
            ""; ""; "Hive Internal Market"; "Trade"]],
     Raise ValueError).
Proof.
  refine (proj1 (run_stops_at_first_exception hive_assets props_example
                   (SFdiv Float64.prec Float64.emax
                      (Float64.of_scaled false 190000000000 (-3))
                      (Float64.of_scaled false 380000000000000000 (-6)))
                   [fill_order_example] [reward_example] broken_reward_example
                   ValueError eq_refl _ eq_refl)).
  repeat (constructor; [vm_compute; reflexivity|]). constructor.
Defined.

(** ** Rows of ten columns *)

Lemma iteration_ten_columns chain rate op rows r :
  iteration chain rate op rows r ->
  Forall (fun row : list string => List.length row = 10%nat) rows.
Proof.
  intros Hiter. apply Forall_forall. intros row Hin.
  destruct Hiter; row_cases Hin; subst; reflexivity.
Qed.

(** X6: every row of the file has ten columns, the header and the rows
    of the operations alike, however the run ends. *)
Theorem rows_have_ten_columns chain props history :
  match main chain props history with
  | (Some f, _) => Forall (fun row : list string => List.length row = 10%nat) f
  | (None, _) => True
  end.
Proof.
  destruct (init_conversion_rate chain props) as [rate|e] eqn:Hrate.
  - destruct (main_rows chain props history rate Hrate) as (rows & r & -> & _ & Hall).
    constructor; [reflexivity|].
    apply Forall_forall. intros row Hin. rewrite Forall_forall in Hall.
    destruct (Hall _ Hin) as (op & rows' & r' & _ & Hiter & Hrow).
    pose proof (iteration_ten_columns _ _ _ _ _ Hiter) as Hten.
    rewrite Forall_forall in Hten. now apply Hten.
  - unfold main. now rewrite Hrate.
Qed.

(** ** Fields that are missing *)

Lemma amount_zero_text chain (sym : string) :
  Beem.known chain sym = true ->
  no_space (Text.of_string sym) = true ->
  Amount chain (String "0" (String " " sym))
  = Ok (Beem.mk_Amount (Decimal.Finite false 0 0) sym).
Proof.
  intros Hknown Hsp. unfold Amount, Beem.of_string.
  change (Text.of_string (String "0" (String " " sym)))
    with ("0"%char :: " "%char :: Text.of_string sym).
  assert (Hsplit : Beem.split_space ("0"%char :: " "%char :: Text.of_string sym)
                   = [["0"%char]; Text.of_string sym]).
  { apply (split_space_pair ["0"%char] (Text.of_string sym)).
    - simpl. intros [H|[]]. discriminate H.
    - intros Hin. unfold no_space in Hsp. rewrite forallb_forall in Hsp.
      specialize (Hsp _ Hin). now rewrite Ascii.eqb_refl in Hsp. }
  rewrite Hsplit. unfold Text.to_string, Text.of_string.
  rewrite string_of_list_ascii_of_string, Hknown. reflexivity.
Qed.

Lemma parse_zero_text chain rate (sym : string) :
  Beem.known chain sym = true ->
  no_space (Text.of_string sym) = true ->
  parse_amount chain rate (String "0" (String " " sym)) false = Ok (S754_zero false)
  /\ exists v, parse_amount chain rate (String "0" (String " " sym)) true = Ok v
               /\ Float64.gt0 v = false.
Proof.
  intros Hknown Hsp. unfold parse_amount.
  rewrite (amount_zero_text _ _ Hknown Hsp). cbn [rbind].
  split; [reflexivity|]. eexists. split; [reflexivity|].
  now apply gt0_mul_zero.
Qed.

(** X7: an amount that is missing counts as zero.  A reward claim with
    none of its three reward fields writes no row and raises nothing,
    whatever the rate; an interest payment with no [interest] field
    still writes its row, with the amount [0.0]. *)
Theorem missing_amounts_count_as_zero chain rate op f s t :
  op !! "timestamp" = Some s -> Datetime.strptime s = Ok t ->
  Beem.known chain "HIVE" = true -> Beem.known chain "HBD" = true ->
  Beem.known chain "VESTS" = true ->
  (op !! "type" = Some "claim_reward_balance" ->
   op !! "reward_hive" = None -> op !! "reward_hbd" = None ->
   op !! "reward_vests" = None ->
   loop_body chain rate op f = (f, Ok tt))
  /\ (op !! "type" = Some "interest" -> op !! "interest" = None ->
      loop_body chain rate op f
      = (f ++ [[Datetime.strftime t; "Interest"; "0.0"; "HBD";
                ""; ""; ""; ""; ""; ""]], Ok tt)).
Proof.
  intros Hs Ht Khive Khbd Kvests.
  destruct (parse_zero_text chain rate "HIVE" Khive eq_refl) as [Phive _].
  destruct (parse_zero_text chain rate "HBD" Khbd eq_refl) as [Phbd _].
  destruct (parse_zero_text chain rate "VESTS" Kvests eq_refl) as (_ & v & Pvests & Hv).
  split.
  - intros Hty Nh Nb Nv.
    rewrite (body_claim chain rate op f s t Hs Ht (S754_zero false) (S754_zero false) v Hty).
    + rewrite Hv. simpl. now rewrite app_nil_r.
    + unfold get. now rewrite Nh.
    + unfold get. now rewrite Nb.
    + unfold get. now rewrite Nv.
  - intros Hty Ni.
    rewrite (body_interest chain rate op f s t Hs Ht (S754_zero false) Hty);
      [reflexivity|].
    unfold get. now rewrite Ni.
Qed.

Lemma missing_amounts_count_as_zero_witness :
  loop_body hive_assets rate_example bare_claim_example [header] = ([header], Ok tt)
  /\ loop_body hive_assets rate_example bare_interest_example [header]
     = ([header;
         ["2023-07-01 00:00:03"; "Interest"; "0.0"; "HBD"; ""; ""; ""; ""; ""; ""]],
        Ok tt).
Proof.
  split.
  - exact (proj1 (missing_amounts_count_as_zero hive_assets rate_example
                    bare_claim_example [header] "2023-06-15T09:30:00"
                    (Datetime.mk_datetime 2023 6 15 9 30 0)
                    eq_refl eq_refl eq_refl eq_refl eq_refl)
                 eq_refl eq_refl eq_refl eq_refl).
  - exact (proj2 (missing_amounts_count_as_zero hive_assets rate_example
                    bare_interest_example [header] "2023-07-01T00:00:03"
                    (Datetime.mk_datetime 2023 7 1 0 0 3)
                    eq_refl eq_refl eq_refl eq_refl eq_refl)
                 eq_refl eq_refl).
Defined.

(** X8: the amounts of a filled conversion and of a filled order have
    no fallback.  A missing [amount_in], [amount_out], [current_pays]
    or [open_pays] raises [KeyError] with the name of the field, the
    first missing one when both are, and no row is written. *)
Theorem pair_fields_are_required chain rate op f s t
    (ty key_in key_out : string) :
  op !! "timestamp" = Some s -> Datetime.strptime s = Ok t ->
  (ty, key_in, key_out) = ("fill_convert_request", "amount_in", "amount_out")
  \/ (ty, key_in, key_out) = ("fill_order", "current_pays", "open_pays") ->
  op !! "type" = Some ty ->
  (op !! key_in = None ->
   loop_body chain rate op f = (f, Raise (KeyError key_in)))
  /\ (forall text_in amount_in,
         op !! key_in = Some text_in -> Amount chain text_in = Ok amount_in ->
         op !! key_out = None ->
         loop_body chain rate op f = (f, Raise (KeyError key_out))).
Proof.
  intros Hs Ht Hkind Hty.
  destruct Hkind as [Hkind|Hkind]; inversion Hkind; subst; clear Hkind; split.
  - intros Hin. run_body. cbn [String.eqb Ascii.eqb Bool.eqb]. repeat run_step.
    reflexivity.
  - intros ti ai Hti Hai Hout. run_body. cbn [String.eqb Ascii.eqb Bool.eqb].
    repeat run_step. reflexivity.
  - intros Hin. run_body. cbn [String.eqb Ascii.eqb Bool.eqb]. repeat run_step.
    reflexivity.
  - intros ti ai Hti Hai Hout. run_body. cbn [String.eqb Ascii.eqb Bool.eqb].
    repeat run_step. reflexivity.
Qed.

Lemma pair_fields_are_required_witness :
  loop_body hive_assets rate_example half_order_example [header]
  = ([header], Raise (KeyError "open_pays")).
Proof.
  exact (proj2 (pair_fields_are_required hive_assets rate_example half_order_example
                  [header] "2023-05-01T12:00:00" (Datetime.mk_datetime 2023 5 1 12 0 0)
                  "fill_order" "current_pays" "open_pays"
                  eq_refl eq_refl (or_intror eq_refl) eq_refl)
               "1.000 HIVE" (Beem.mk_Amount (Decimal.Finite false 1000 (-3)) "HIVE")
               eq_refl eq_refl eq_refl).
Defined.

(** X9: the timestamp is read before the type is looked at.  An
    operation with no timestamp, or with one [strptime] refuses, raises
    ([KeyError] or [ValueError]) and writes nothing, whatever its type:
    also an operation of a kind the loop would skip. *)
Theorem timestamp_is_read_first chain rate op f e :
  (try s := getitem op "timestamp" in Datetime.strptime s) = Raise e ->
  loop_body chain rate op f = (f, Raise e)
  /\ (e = KeyError "timestamp" \/ e = ValueError).
Proof.
  intros He. split.
  - unfold loop_body. now rewrite (bind_lift_raise _ _ _ _ He).
  - unfold getitem in He. destruct (op !! "timestamp") as [s|]; cbn [rbind] in He.
    + right. unfold Datetime.strptime in He.
      repeat case_match; congruence.
    + left. congruence.
Qed.

Lemma timestamp_is_read_first_witness :
  loop_body hive_assets rate_example undated_transfer_example [header]
  = ([header], Raise ValueError)
  /\ (ValueError = KeyError "timestamp" \/ ValueError = ValueError).
Proof.
  apply (timestamp_is_read_first hive_assets rate_example undated_transfer_example
           [header] ValueError).
  reflexivity.
Defined.

(** ** What [parse_amount] accepts *)

Lemma no_space_not_in (l : Text.chars) : no_space l = true -> ~ In " "%char l.
Proof.
  intros Hl Hin. unfold no_space in Hl. rewrite forallb_forall in Hl.
  specialize (Hl _ Hin). now rewrite Ascii.eqb_refl in Hl.
Qed.

Lemma split_space_nonempty (s : Text.chars) : Beem.split_space s <> [].
Proof.
  destruct s as [|c s]; simpl; [discriminate|].
  destruct (Ascii.eqb c " "%char); [discriminate|].
  destruct (Beem.split_space s); discriminate.
Qed.

Lemma split_space_one (s b : Text.chars) :
  Beem.split_space s = [b] -> s = b /\ no_space b = true.
Proof.
  revert b. induction s as [|c s IH]; intros b H; simpl in H.
  - injection H as <-. now split.
  - destruct (Ascii.eqb c " "%char) eqn:Hc.
    + injection H as _ H. now apply split_space_nonempty in H.
    + destruct (Beem.split_space s) as [|p ps] eqn:Hsp;
        [now apply split_space_nonempty in Hsp|].
      injection H as <- ->. destruct (IH p eq_refl) as [-> Hp].
      split; [reflexivity|]. unfold no_space. simpl. now rewrite Hc.
Qed.

Lemma split_space_two (s a b : Text.chars) :
  Beem.split_space s = [a; b] ->
  s = a ++ " "%char :: b /\ no_space a = true /\ no_space b = true.
Proof.
  revert a. induction s as [|c s IH]; intros a H; simpl in H; [discriminate|].
  destruct (Ascii.eqb c " "%char) eqn:Hc.
  - apply Ascii.eqb_eq in Hc. subst c. injection H as <- H.
    destruct (split_space_one _ _ H) as [-> Hb]. now repeat split.
  - destruct (Beem.split_space s) as [|p ps] eqn:Hsp;
      [now apply split_space_nonempty in Hsp|].
    injection H as <- ->. destruct (IH p eq_refl) as (-> & Hp & Hb).
    repeat split; [|exact Hb]. unfold no_space. simpl. now rewrite Hc.
Qed.

(** One piece more than there are spaces. *)
Lemma split_space_length (s : Text.chars) :
  List.length (Beem.split_space s) = S (spaces s).
Proof.
  unfold spaces. induction s as [|c s IH]; [reflexivity|].
  simpl. destruct (Ascii.eqb c " "%char) eqn:Hc.
  - simpl. now rewrite IH.
  - destruct (Beem.split_space s) as [|p ps] eqn:Hsp;
      [now apply split_space_nonempty in Hsp|].
    exact IH.
Qed.

Lemma amount_of_pair chain (d sym : Text.chars) :
  no_space d = true -> no_space sym = true ->
  Amount chain (Text.to_string (d ++ " "%char :: sym))
  = if Beem.known chain (Text.to_string sym)
    then try dec := Decimal.of_chars d in Ok (Beem.mk_Amount dec (Text.to_string sym))
    else Raise (AssetDoesNotExistsException (Text.to_string sym)).
Proof.
  intros Hd Hs. unfold Amount, Beem.of_string. rewrite of_string_to_string.
  now rewrite split_space_pair by now apply no_space_not_in.
Qed.

(** X10: [parse_amount] returns a value only for a text made of a
    decimal, one space and an asset of the chain, with no other space;
    the value is then the float of the decimal, times the rate when
    [is_vests] is set. *)
Theorem parse_amount_only_amounts chain rate text (is_vests : bool) v :
  parse_amount chain rate text is_vests = Ok v ->
  exists d sym dec x,
    text = Text.to_string (d ++ " "%char :: sym)
    /\ no_space (d ++ sym) = true
    /\ spaces (Text.of_string text) = 1%nat
    /\ Beem.known chain (Text.to_string sym) = true
    /\ Decimal.of_chars d = Ok dec
    /\ Decimal.to_float dec = Ok x
    /\ v = if is_vests then Float64.mul x rate else x.
Proof.
  intros Hv.
  destruct (parse_amount_inv _ _ _ _ _ Hv) as (a & x & Ha & Hx & ->).
  pose proof (split_space_length (Text.of_string text)) as Hlen.
  unfold Amount, Beem.of_string in Ha.
  destruct (Beem.split_space (Text.of_string text)) as [|d [|sym [|]]] eqn:Hsplit;
    try discriminate Ha.
  destruct (Beem.known chain (Text.to_string sym)) eqn:Hknown; [|discriminate Ha].
  destruct (Decimal.of_chars d) as [dec|] eqn:Hdec; [|discriminate Ha].
  cbn [rbind] in Ha. injection Ha as <-.
  destruct (split_space_two _ _ _ Hsplit) as (Htext & Hd & Hs).
  exists d, sym, dec, x. repeat split; try assumption.
  - rewrite <- Htext. unfold Text.to_string, Text.of_string.
    now rewrite string_of_list_ascii_of_string.
  - unfold no_space in *. rewrite forallb_app. now rewrite Hd, Hs.
  - simpl in Hlen. lia.
Qed.

Lemma parse_amount_only_amounts_witness :
  exists d sym dec x,
    "2.500 HBD" = Text.to_string (d ++ " "%char :: sym)
    /\ no_space (d ++ sym) = true
    /\ spaces (Text.of_string "2.500 HBD") = 1%nat
    /\ Beem.known hive_assets (Text.to_string sym) = true
    /\ Decimal.of_chars d = Ok dec
    /\ Decimal.to_float dec = Ok x
    /\ Float64.of_scaled false 2500 (-3) = if false then Float64.mul x rate_example else x.
Proof.
  apply (parse_amount_only_amounts hive_assets rate_example "2.500 HBD" false).
  reflexivity.
Defined.

(** X11: the unit written in the text plays no part in the value.
    With the same decimal, two texts that name different assets of the
    chain parse to the same result, value or exception: it is the flag
    [is_vests] that decides on the conversion, not the word VESTS. *)
Theorem parse_amount_ignores_symbol chain rate (d sym1 sym2 : Text.chars)
    (is_vests : bool) :
  no_space (d ++ sym1 ++ sym2) = true ->
  Beem.known chain (Text.to_string sym1) = true ->
  Beem.known chain (Text.to_string sym2) = true ->
  parse_amount chain rate (Text.to_string (d ++ " "%char :: sym1)) is_vests
  = parse_amount chain rate (Text.to_string (d ++ " "%char :: sym2)) is_vests.
Proof.
  intros Hsp K1 K2. unfold no_space in Hsp. rewrite !forallb_app in Hsp.
  apply andb_prop in Hsp as [Hd Hs]. apply andb_prop in Hs as [H1 H2].
  unfold parse_amount. rewrite !amount_of_pair by assumption.
  rewrite K1, K2. now destruct (Decimal.of_chars d).
Qed.

Lemma parse_amount_ignores_symbol_witness :
  parse_amount hive_assets rate_example "5.000 HIVE" true
  = parse_amount hive_assets rate_example "5.000 VESTS" true.
Proof.
  apply (parse_amount_ignores_symbol hive_assets rate_example
           (Text.of_string "5.000") (Text.of_string "HIVE") (Text.of_string "VESTS") true).
  - reflexivity.
  - reflexivity.
  - reflexivity.
Defined.

(** X12: how [parse_amount] fails.  A text with no space or with more
    than one raises [ValueError]; with one space, an asset the chain
    does not list raises [AssetDoesNotExistsException], before the
    decimal is looked at; with a listed asset, a decimal that
    [Decimal] refuses raises [InvalidOperation]. *)
Theorem parse_amount_failures chain rate (is_vests : bool) :
  (forall text, spaces (Text.of_string text) <> 1%nat ->
                parse_amount chain rate text is_vests = Raise ValueError)
  /\ (forall d sym,
         no_space (d ++ sym) = true ->
         Beem.known chain (Text.to_string sym) = false ->
         parse_amount chain rate (Text.to_string (d ++ " "%char :: sym)) is_vests
         = Raise (AssetDoesNotExistsException (Text.to_string sym)))
  /\ (forall d sym e,
         no_space (d ++ sym) = true ->
         Beem.known chain (Text.to_string sym) = true ->
         Decimal.of_chars d = Raise e ->
         parse_amount chain rate (Text.to_string (d ++ " "%char :: sym)) is_vests
         = Raise InvalidOperation).
Proof.
  split; [|split].
  - intros text Hsp. unfold parse_amount, Amount, Beem.of_string.
    pose proof (split_space_length (Text.of_string text)) as Hlen.
    destruct (Beem.split_space (Text.of_string text)) as [|a [|b [|]]];
      try reflexivity.
    simpl in Hlen. lia.
  - intros d sym Hsp Hknown. unfold no_space in Hsp. rewrite forallb_app in Hsp.
    apply andb_prop in Hsp as [Hd Hs].
    unfold parse_amount. rewrite amount_of_pair by assumption.
    now rewrite Hknown.
  - intros d sym e Hsp Hknown Hdec. unfold no_space in Hsp. rewrite forallb_app in Hsp.
    apply andb_prop in Hsp as [Hd Hs].
    unfold parse_amount. rewrite amount_of_pair by assumption.
    rewrite Hknown, Hdec. cbn [rbind].
    unfold Decimal.of_chars in Hdec. repeat case_match; congruence.
Qed.

Lemma parse_amount_failures_witness :
  parse_amount hive_assets rate_example "1.000HIVE" true = Raise ValueError
  /\ parse_amount hive_assets rate_example "1.000 HIVE " true = Raise ValueError
  /\ parse_amount hive_assets rate_example "plenty BTC" true
     = Raise (AssetDoesNotExistsException "BTC")
  /\ parse_amount hive_assets rate_example "plenty HIVE" true = Raise InvalidOperation.
Proof.
  destruct (parse_amount_failures hive_assets rate_example true) as (H1 & H2 & H3).
  split; [apply H1; vm_compute; discriminate|].
  split; [apply H1; vm_compute; discriminate|].
  split.
  - apply (H2 (Text.of_string "plenty") (Text.of_string "BTC")); reflexivity.
  - apply (H3 (Text.of_string "plenty") (Text.of_string "HIVE") InvalidOperation);
      reflexivity.
Defined.

(** ** The first column, whatever the width of the timestamp *)

Lemma in_seq_reader {A B} (r : Datetime.reader A) (k : A -> Datetime.reader B)
    (s : Text.chars) (y : B * Text.chars) :
  In y (Datetime.seq r k s) ->
  exists a rest, In (a, rest) (r s) /\ In y (k a rest).
Proof.
  unfold Datetime.seq. intros H. apply in_flat_map in H as ([a rest] & Ha & Hy).
  now exists a, rest.
Qed.

Lemma in_two (P : Z -> Z -> bool) (s rest : Text.chars) (v : Z) :
  In (v, rest) (Datetime.two P s) ->
  exists a b, 0 <= a <= 9 /\ 0 <= b <= 9 /\ P a b = true /\ v = 10 * a + b.
Proof.
  unfold Datetime.two. destruct s as [|a [|b s]]; try (intros []).
  destruct (Text.is_digit a) eqn:Ha; [|intros []].
  destruct (Text.is_digit b) eqn:Hb; [|intros []].
  destruct (P (Text.digit_value a) (Text.digit_value b)) eqn:HP; [|intros []].
  simpl. intros [H|[]]. injection H as <- _.
  exists (Text.digit_value a), (Text.digit_value b).
  repeat split; try assumption; now apply digit_range.
Qed.

Lemma in_one (P : Z -> bool) (s rest : Text.chars) (v : Z) :
  In (v, rest) (Datetime.one P s) -> 0 <= v <= 9 /\ P v = true.
Proof.
  unfold Datetime.one. destruct s as [|a s]; try (intros []).
  destruct (Text.is_digit a) eqn:Ha; [|intros []].
  destruct (P (Text.digit_value a)) eqn:HP; [|intros []].
  simpl. intros [H|[]]. injection H as <- _. split; [now apply digit_range|exact HP].
Qed.

(** Take a reading apart, alternative by alternative. *)
Ltac readings H :=
  repeat first
    [ apply in_app_or in H as [H|H]
    | apply in_two in H as (? & ? & ? & ? & ? & ->)
    | apply in_one in H as [? ?] ].

Lemma read_Y_range s v rest : In (v, rest) (Datetime.read_Y s) -> 0 <= v <= 9999.
Proof.
  unfold Datetime.read_Y. intros H.
  apply in_seq_reader in H as (hi & r1 & H1 & H).
  apply in_seq_reader in H as (lo & r2 & H2 & H).
  destruct H as [H|[]]. injection H as <- _.
  apply in_two in H1 as (? & ? & ? & ? & _ & ->).
  apply in_two in H2 as (? & ? & ? & ? & _ & ->). lia.
Qed.

Lemma read_m_range s v rest : In (v, rest) (Datetime.read_m s) -> 1 <= v <= 12.
Proof. unfold Datetime.read_m, Datetime.alt. intros H. readings H; lia. Qed.

Lemma read_d_range s v rest : In (v, rest) (Datetime.read_d s) -> 1 <= v <= 31.
Proof.
  unfold Datetime.read_d, Datetime.alt. intros H. readings H; try lia.
  apply in_seq_reader in H as (? & ? & _ & H). readings H. lia.
Qed.

Lemma read_H_range s v rest : In (v, rest) (Datetime.read_H s) -> 0 <= v <= 23.
Proof. unfold Datetime.read_H, Datetime.alt. intros H. readings H; lia. Qed.

Lemma read_M_range s v rest : In (v, rest) (Datetime.read_M s) -> 0 <= v <= 59.
Proof. unfold Datetime.read_M, Datetime.alt. intros H. readings H; lia. Qed.

Lemma read_S_range s v rest : In (v, rest) (Datetime.read_S s) -> 0 <= v <= 61.
Proof. unfold Datetime.read_S, Datetime.alt. intros H. readings H; lia. Qed.

(** What [strptime] returns is a date and a time of day. *)
Lemma strptime_ranges (s : string) (t : Datetime.datetime) :
  Datetime.strptime s = Ok t ->
  1 <= Datetime.year t <= 9999 /\ 1 <= Datetime.month t <= 12
  /\ 1 <= Datetime.day t <= Datetime.days_in_month (Datetime.year t) (Datetime.month t)
  /\ 0 <= Datetime.hour t <= 23 /\ 0 <= Datetime.minute t <= 59
  /\ 0 <= Datetime.second t <= 59.
Proof.
  unfold Datetime.strptime. intros H.
  destruct (Datetime.read_iso (Text.of_string s)) as [|[t' [|]] l] eqn:Hread;
    try discriminate H.
  destruct (Datetime.valid t') eqn:Hvalid; [|discriminate H].
  injection H as <-.
  assert (Hin : In (t', []) (Datetime.read_iso (Text.of_string s)))
    by (rewrite Hread; now left).
  clear Hread. unfold Datetime.read_iso in Hin.
  apply in_seq_reader in Hin as (y & ? & Hy & Hin).
  apply in_seq_reader in Hin as (? & ? & _ & Hin).
  apply in_seq_reader in Hin as (mo & ? & Hmo & Hin).
  apply in_seq_reader in Hin as (? & ? & _ & Hin).
  apply in_seq_reader in Hin as (d & ? & Hd & Hin).
  apply in_seq_reader in Hin as (? & ? & _ & Hin).
  apply in_seq_reader in Hin as (h & ? & Hh & Hin).
  apply in_seq_reader in Hin as (? & ? & _ & Hin).
  apply in_seq_reader in Hin as (mi & ? & Hmi & Hin).
  apply in_seq_reader in Hin as (? & ? & _ & Hin).
  apply in_seq_reader in Hin as (se & ? & Hse & Hin).
  destruct Hin as [Hin|[]]. injection Hin as <- _.
  apply read_Y_range in Hy. apply read_m_range in Hmo. apply read_d_range in Hd.
  apply read_H_range in Hh. apply read_M_range in Hmi. apply read_S_range in Hse.
  unfold Datetime.valid in Hvalid. simpl in *.
  apply andb_prop in Hvalid as [Hvalid H3]. apply andb_prop in Hvalid as [H1 H2].
  lia.
Qed.

Lemma numeral_four_digits (y : Z) :
  1000 <= y <= 9999 ->
  exists a b c d, Text.numeral y = [a; b; c; d]
                  /\ forallb Text.is_digit [a; b; c; d] = true.
Proof.
  intros Hy.
  pose (ok := fun k : nat =>
          match Text.numeral (1000 + Z.of_nat k) with
          | [a; b; c; d] => forallb Text.is_digit [a; b; c; d]
          | _ => false
          end).
  assert (Hall : forallb ok (List.seq 0 (Z.to_nat 9000)) = true)
    by (vm_compute; reflexivity).
  rewrite forallb_forall in Hall.
  specialize (Hall (Z.to_nat (y - 1000))). unfold ok in Hall.
  replace (1000 + Z.of_nat (Z.to_nat (y - 1000))) with y in Hall by lia.
  assert (Hin : In (Z.to_nat (y - 1000)) (List.seq 0 (Z.to_nat 9000)))
    by (apply in_seq; lia).
  specialize (Hall Hin).
  destruct (Text.numeral y) as [|a [|b [|c [|d [|]]]]]; try discriminate.
  now exists a, b, c, d.
Qed.

Lemma zero_pad_two_digits (v : Z) :
  0 <= v <= 99 ->
  exists a b, Text.zero_pad 2 v = [a; b] /\ forallb Text.is_digit [a; b] = true.
Proof.
  intros Hv.
  pose (ok := fun k : nat =>
          match Text.zero_pad 2 (Z.of_nat k) with
          | [a; b] => forallb Text.is_digit [a; b]
          | _ => false
          end).
  assert (Hall : forallb ok (List.seq 0 100) = true) by (vm_compute; reflexivity).
  rewrite forallb_forall in Hall.
  specialize (Hall (Z.to_nat v)). unfold ok in Hall. rewrite Z2Nat.id in Hall by lia.
  assert (Hin : In (Z.to_nat v) (List.seq 0 100)) by (apply in_seq; lia).
  specialize (Hall Hin).
  destruct (Text.zero_pad 2 v) as [|a [|b [|]]]; try discriminate.
  now exists a, b.
Qed.

Lemma strftime_shape (t : Datetime.datetime) :
  1000 <= Datetime.year t <= 9999 -> 0 <= Datetime.month t <= 99 ->
  0 <= Datetime.day t <= 99 -> 0 <= Datetime.hour t <= 99 ->
  0 <= Datetime.minute t <= 99 -> 0 <= Datetime.second t <= 99 ->
  sql_shape (Datetime.strftime t) = true.
Proof.
  intros Hy Hmo Hd Hh Hmi Hs.
  destruct (numeral_four_digits _ Hy) as (y1 & y2 & y3 & y4 & Ey & Dy).
  destruct (zero_pad_two_digits _ Hmo) as (m1 & m2 & Em & Dm).
  destruct (zero_pad_two_digits _ Hd) as (d1 & d2 & Ed & Dd).
  destruct (zero_pad_two_digits _ Hh) as (h1 & h2 & Eh & Dh).
  destruct (zero_pad_two_digits _ Hmi) as (n1 & n2 & En & Dn).
  destruct (zero_pad_two_digits _ Hs) as (s1 & s2 & Es & Ds).
  unfold sql_shape, Datetime.strftime. rewrite of_string_to_string.
  rewrite Ey, Em, Ed, Eh, En, Es. cbn [app].
  apply andb_true_intro. split; [|reflexivity].
  change [y1; y2; y3; y4; m1; m2; d1; d2; h1; h2; n1; n2; s1; s2]
    with ([y1; y2; y3; y4] ++ [m1; m2] ++ [d1; d2] ++ [h1; h2] ++ [n1; n2] ++ [s1; s2]).
  now rewrite !forallb_app, Dy, Dm, Dd, Dh, Dn, Ds.
Qed.

(** X13: the first column is normalized.  Whatever the width of the
    fields of the timestamp that [strptime] accepted (a month or an
    hour of one digit, say), every row shows the date and time as
    [YYYY-MM-DD HH:MM:SS], all digits on their full width, for a year
    from 1000 on; the date is a real one and the time is below
    24:00:00. *)
Theorem time_column_normalized chain rate op f row :
  row ∈ new_rows f (loop_body chain rate op) ->
  exists s t,
    op !! "timestamp" = Some s /\ Datetime.strptime s = Ok t
    /\ row !! 0%nat = Some (Datetime.strftime t)
    /\ 1 <= Datetime.month t <= 12
    /\ 1 <= Datetime.day t <= Datetime.days_in_month (Datetime.year t) (Datetime.month t)
    /\ Datetime.hour t <= 23 /\ Datetime.minute t <= 59 /\ Datetime.second t <= 59
    /\ (1000 <= Datetime.year t -> sql_shape (Datetime.strftime t) = true).
Proof.
  intros Hin.
  destruct (new_rows_iteration chain rate op f) as (r & Hiter & _).
  assert (Hshape : exists s t rest,
             op !! "timestamp" = Some s /\ Datetime.strptime s = Ok t
             /\ row = Datetime.strftime t :: rest).
  { destruct Hiter; row_cases Hin; subst; eexists _, _, _;
      (split; [eassumption|]); (split; [eassumption|]); reflexivity. }
  destruct Hshape as (s & t & rest & Hs & Ht & ->).
  destruct (strptime_ranges _ _ Ht) as (Hy & Hmo & Hd & Hh & Hmi & Hse).
  exists s, t. repeat split; try assumption; try lia.
  intros Hyear. apply strftime_shape; try lia.
  assert (Datetime.days_in_month (Datetime.year t) (Datetime.month t) <= 31)
    by (unfold Datetime.days_in_month; repeat case_match; lia).
  lia.
Qed.

Lemma time_column_normalized_witness :
  exists s t,
    short_stamp_example !! "timestamp" = Some s /\ Datetime.strptime s = Ok t
    /\ ["2023-05-01 01:02:03"; "Trade"; "1.0"; "HIVE"; "0.5"; "HBD";
        ""; ""; "Hive Internal Market"; "Trade"] !! 0%nat
       = Some (Datetime.strftime t)
    /\ 1 <= Datetime.month t <= 12
    /\ 1 <= Datetime.day t <= Datetime.days_in_month (Datetime.year t) (Datetime.month t)
    /\ Datetime.hour t <= 23 /\ Datetime.minute t <= 59 /\ Datetime.second t <= 59
    /\ (1000 <= Datetime.year t -> sql_shape (Datetime.strftime t) = true).
Proof.
  apply (time_column_normalized hive_assets rate_example short_stamp_example []).
  vm_compute. apply list_elem_of_here.
Defined.

(** ** Fields that need no quotes *)

Lemma digits_unquoted (l : Text.chars) :
  forallb Text.is_digit l = true -> unquoted l = true.
Proof.
  unfold unquoted. rewrite !forallb_forall. intros H c Hc. specialize (H c Hc).
  rewrite <- (digit_char_value c).
  apply digit_range, digit_values_range in H.
  assert (Hall : forallb (fun v => negb (Csv.special (Text.digit_char v))) digit_values
                 = true) by reflexivity.
  rewrite forallb_forall in Hall. now apply Hall.
Qed.

Lemma unquoted_app (l1 l2 : Text.chars) :
  unquoted (l1 ++ l2) = unquoted l1 && unquoted l2.
Proof. apply forallb_app. Qed.

Lemma unquoted_numeral (n : Z) : unquoted (Text.numeral n) = true.
Proof. apply digits_unquoted, numeral_digits. Qed.

Lemma unquoted_repeat_zero (n : nat) : unquoted (repeat "0"%char n) = true.
Proof. induction n as [|n IH]; [reflexivity|]. simpl. exact IH. Qed.

Lemma unquoted_zero_pad (w : nat) (n : Z) : unquoted (Text.zero_pad w n) = true.
Proof.
  unfold Text.zero_pad. now rewrite unquoted_app, unquoted_repeat_zero, unquoted_numeral.
Qed.

Lemma unquoted_take_drop (n : nat) (l : Text.chars) :
  unquoted l = true -> unquoted (take n l) = true /\ unquoted (drop n l) = true.
Proof.
  intros H. rewrite <- (take_drop n l), unquoted_app in H.
  now apply andb_prop in H.
Qed.

Lemma plain_strftime (t : Datetime.datetime) : plain (Datetime.strftime t) = true.
Proof.
  unfold plain, Datetime.strftime. rewrite of_string_to_string.
  change (unquoted (Text.numeral (Datetime.year t) ++ ["-"%char]
                    ++ Text.zero_pad 2 (Datetime.month t) ++ ["-"%char]
                    ++ Text.zero_pad 2 (Datetime.day t) ++ [" "%char]
                    ++ Text.zero_pad 2 (Datetime.hour t) ++ [":"%char]
                    ++ Text.zero_pad 2 (Datetime.minute t) ++ [":"%char]
                    ++ Text.zero_pad 2 (Datetime.second t)) = true).
  rewrite !unquoted_app, unquoted_numeral, !unquoted_zero_pad. reflexivity.
Qed.

Lemma unquoted_sign (neg : bool) : unquoted (Float64.sign_text neg) = true.
Proof. now destruct neg. Qed.

Lemma unquoted_exponent (x : Z) : unquoted (Float64.exponent_text x) = true.
Proof.
  unfold Float64.exponent_text.
  change (unquoted ([if x <? 0 then "-"%char else "+"%char]
                    ++ Text.zero_pad 2 (Z.abs x)) = true).
  rewrite unquoted_app, unquoted_zero_pad. now destruct (x <? 0).
Qed.

Lemma unquoted_layout (ds : Text.chars) (p : Z) :
  unquoted ds = true -> unquoted (Float64.layout ds p) = true.
Proof.
  intros Hds. unfold Float64.layout.
  destruct ((p <=? -4) || (16 <? p)).
  - destruct ds as [|d [|d' rest]]; [reflexivity| |].
    + change (unquoted ([d] ++ ["e"%char] ++ Float64.exponent_text (p - 1)) = true).
      now rewrite !unquoted_app, Hds, unquoted_exponent.
    + change (unquoted ([d] ++ ["."%char] ++ (d' :: rest) ++ ["e"%char]
                        ++ Float64.exponent_text (p - 1)) = true).
      change (unquoted ([d] ++ d' :: rest) = true) in Hds.
      rewrite unquoted_app in Hds. apply andb_prop in Hds as [H1 H2].
      now rewrite !unquoted_app, H1, H2, unquoted_exponent.
  - destruct (p <=? 0).
    + change (unquoted (["0"%char; "."%char] ++ Float64.zeros (- p) ++ ds) = true).
      unfold Float64.zeros. now rewrite !unquoted_app, unquoted_repeat_zero, Hds.
    + destruct (Z.of_nat (List.length ds) <=? p).
      * unfold Float64.zeros. now rewrite !unquoted_app, unquoted_repeat_zero, Hds.
      * destruct (unquoted_take_drop (Z.to_nat p) ds Hds) as [H1 H2].
        change (unquoted (take (Z.to_nat p) ds ++ ["."%char] ++ drop (Z.to_nat p) ds)
                = true).
        now rewrite !unquoted_app, H1, H2.
Qed.

Lemma plain_repr (x : Float64.float) : plain (Float64.repr x) = true.
Proof.
  unfold plain, Float64.repr. rewrite of_string_to_string.
  destruct x as [s|s| |s m e]; try (now destruct s); [reflexivity|].
  unfold Float64.shortest.
  destruct (Float64.shortest_go _ _ _ _ _) as [c k].
  destruct (Float64.strip_zeros c k) as [c' k'].
  rewrite unquoted_app, unquoted_sign. apply unquoted_layout, unquoted_numeral.
Qed.

Lemma plain_format_3f (x : Float64.float) : plain (Float64.format_3f x) = true.
Proof.
  unfold plain, Float64.format_3f. rewrite of_string_to_string.
  destruct x as [s|s| |s m e]; try (now destruct s); [reflexivity|].
  set (t := Float64.round_half_even _).
  change (unquoted (Float64.sign_text s ++ Text.numeral (t / 1000) ++ ["."%char]
                    ++ Text.zero_pad 3 (t mod 1000)) = true).
  now rewrite !unquoted_app, unquoted_sign, unquoted_numeral, unquoted_zero_pad.
Qed.

(** An amount the chain accepted names one of its assets. *)
Lemma amount_symbol_known chain text a :
  Amount chain text = Ok a -> Beem.known chain (Beem.symbol a) = true.
Proof.
  unfold Amount, Beem.of_string. intros H.
  destruct (Beem.split_space (Text.of_string text)) as [|d [|sym [|]]];
    try discriminate H.
  destruct (Beem.known chain (Text.to_string sym)) eqn:Hknown; [|discriminate H].
  destruct (Decimal.of_chars d); [|discriminate H].
  cbn [rbind] in H. now injection H as <-.
Qed.

Lemma known_plain chain (id : string) :
  plain_chain chain = true -> Beem.known chain id = true -> plain id = true.
Proof.
  unfold plain_chain, Beem.known. intros Hchain Hknown.
  apply existsb_exists in Hknown as ([nai sym] & Hin & Hid).
  rewrite forallb_forall in Hchain. specialize (Hchain _ Hin). simpl in Hchain.
  apply andb_prop in Hchain as [Hnai Hsym].
  apply orb_prop in Hid as [Hid|Hid]; apply String.eqb_eq in Hid; now subst.
Qed.

Lemma iteration_plain chain rate op rows r row :
  plain_chain chain = true ->
  iteration chain rate op rows r -> row ∈ rows ->
  Forall (fun field => plain field = true) row.
Proof.
  intros Hchain Hiter Hin.
  destruct Hiter; row_cases Hin; subst; unfold income_row;
    repeat (constructor;
            try first [ apply plain_strftime | apply plain_repr | apply plain_format_3f
                      | reflexivity
                      | eapply known_plain; [exact Hchain|];
                        eapply amount_symbol_known; eassumption ]).
  all: match goal with H : _ \/ _ |- _ => destruct H as [H|H]; inversion H; reflexivity end.
Qed.

Lemma field_plain (f : string) : plain f = true -> Csv.field f = Text.of_string f.
Proof.
  unfold plain, unquoted, Csv.field. intros H.
  destruct (existsb Csv.special (Text.of_string f)) eqn:He; [|reflexivity].
  apply existsb_exists in He as (c & Hc & Hs).
  rewrite forallb_forall in H. specialize (H _ Hc). now rewrite Hs in H.
Qed.

Lemma commas_app (l1 l2 : Text.chars) : commas (l1 ++ l2) = (commas l1 + commas l2)%nat.
Proof. unfold commas. now rewrite List.filter_app, length_app. Qed.

Lemma commas_unquoted (l : Text.chars) : unquoted l = true -> commas l = 0%nat.
Proof.
  unfold commas, unquoted. induction l as [|c l IH]; [reflexivity|].
  simpl. intros H. apply andb_prop in H as [Hc Hl].
  unfold Csv.special in Hc. destruct (Ascii.eqb c ","%char); [discriminate Hc|].
  now apply IH.
Qed.

(** As many commas as fields, less one. *)
Lemma commas_join (fs : list Text.chars) :
  Forall (fun f => unquoted f = true) fs ->
  commas (Csv.join fs) = pred (List.length fs).
Proof.
  induction 1 as [|f fs Hf Hfs IH]; [reflexivity|].
  destruct fs as [|g fs]; [simpl; now apply commas_unquoted|].
  change (Csv.join (f :: g :: fs)) with (f ++ ","%char :: Csv.join (g :: fs)).
  rewrite commas_app, (commas_unquoted _ Hf).
  change (","%char :: Csv.join (g :: fs)) with ([","%char] ++ Csv.join (g :: fs)).
  rewrite commas_app, IH. reflexivity.
Qed.

Lemma line_plain (row : list string) :
  List.length row = 10%nat ->
  Forall (fun field => plain field = true) row ->
  Csv.line row = Text.to_string (Csv.join (map Text.of_string row) ++ [Csv.CR; Csv.LF])
  /\ commas (Text.of_string (Csv.line row)) = 9%nat.
Proof.
  intros Hlen Hplain.
  assert (Hmap : map Csv.field row = map Text.of_string row).
  { apply map_ext_in. intros f Hf. apply field_plain.
    rewrite Forall_forall in Hplain. apply Hplain. now apply list_elem_of_In. }
  assert (Hline : Csv.line row
                  = Text.to_string (Csv.join (map Text.of_string row) ++ [Csv.CR; Csv.LF])).
  { rewrite <- Hmap. unfold Csv.line.
    destruct row as [|f [|g row]]; try discriminate Hlen. now destruct f. }
  split; [exact Hline|].
  rewrite Hline, of_string_to_string, commas_app, commas_join.
  - rewrite length_map, Hlen. reflexivity.
  - apply Forall_forall. intros l Hl. apply list_elem_of_In in Hl.
    apply in_map_iff in Hl as (f & <- & Hf).
    rewrite Forall_forall in Hplain. apply Hplain. now apply list_elem_of_In.
Qed.

(** X14: no field of the file is ever quoted.  On a chain whose asset
    names hold no comma, quote or line end, every field of every row
    is free of them, so each line of the file is the ten fields as
    they are with nine commas between them, then CR LF. *)
Theorem lines_need_no_quotes chain props history :
  plain_chain chain = true ->
  match main chain props history with
  | (Some f, _) =>
      Forall (fun row =>
                Forall (fun field => plain field = true) row
                /\ Csv.line row
                   = Text.to_string (Csv.join (map Text.of_string row)
                                     ++ [Csv.CR; Csv.LF])
                /\ commas (Text.of_string (Csv.line row)) = 9%nat) f
  | (None, _) => True
  end.
Proof.
  intros Hchain.
  destruct (init_conversion_rate chain props) as [rate|e] eqn:Hrate.
  - destruct (main_rows chain props history rate Hrate) as (rows & r & -> & _ & Hall).
    constructor.
    + split; [repeat constructor|]. now apply line_plain; [|repeat constructor].
    + apply Forall_forall. intros row Hin. rewrite Forall_forall in Hall.
      destruct (Hall _ Hin) as (op & rows' & r' & _ & Hiter & Hrow).
      pose proof (iteration_plain _ _ _ _ _ _ Hchain Hiter Hrow) as Hplain.
      pose proof (iteration_ten_columns _ _ _ _ _ Hiter) as Hten.
      rewrite Forall_forall in Hten. specialize (Hten _ Hrow).
      split; [exact Hplain|]. now apply line_plain.
  - unfold main. now rewrite Hrate.
Qed.

Lemma lines_need_no_quotes_witness :
  match main hive_assets props_example [reward_example; fill_order_example] with
  | (Some f, _) =>
      Forall (fun row =>
                Forall (fun field => plain field = true) row
                /\ Csv.line row
                   = Text.to_string (Csv.join (map Text.of_string row)
                                     ++ [Csv.CR; Csv.LF])
                /\ commas (Text.of_string (Csv.line row)) = 9%nat) f
  | (None, _) => True
  end.
Proof.
  apply (lines_need_no_quotes hive_assets props_example
           [reward_example; fill_order_example]).
  reflexivity.
Defined.

(** ** Currencies *)

(** X15: the currency columns never show a word of the operation that
    the chain does not list.  In every row the In-Currency is one of
    the literals HIVE, HBD and HP or an asset of the chain, and the
    Out-Currency is empty or an asset of the chain. *)
Theorem currencies_are_listed chain rate op f row :
  row ∈ new_rows f (loop_body chain rate op) ->
  (exists c, row !! 3%nat = Some c
             /\ (c ∈ ["HIVE"; "HBD"; "HP"] \/ Beem.known chain c = true))
  /\ (exists c, row !! 5%nat = Some c /\ (c = "" \/ Beem.known chain c = true)).
Proof.
  intros Hin.
  destruct (new_rows_iteration chain rate op f) as (r & Hiter & _).
  destruct Hiter; row_cases Hin; subst; unfold income_row;
    (split; eexists; (split; [reflexivity|]));
    try (left; solve [repeat constructor]); try (left; reflexivity);
    right; eapply amount_symbol_known; eassumption.
Qed.

Lemma currencies_are_listed_witness :
  (exists c, ["2023-05-01 12:00:00"; "Trade"; "1.0"; "HIVE"; "0.5"; "HBD";
              ""; ""; "Hive Internal Market"; "Trade"] !! 3%nat = Some c
             /\ (c ∈ ["HIVE"; "HBD"; "HP"] \/ Beem.known hive_assets c = true))
  /\ (exists c, ["2023-05-01 12:00:00"; "Trade"; "1.0"; "HIVE"; "0.5"; "HBD";
                 ""; ""; "Hive Internal Market"; "Trade"] !! 5%nat = Some c
                /\ (c = "" \/ Beem.known hive_assets c = true)).
Proof.
  apply (currencies_are_listed hive_assets rate_example fill_order_example []).
  vm_compute. apply list_elem_of_here.
Defined.

(** ** No rate, no file *)

(** X16: the rate comes first.  When its computation raises (a global
    property that is missing, read in the order fund then shares, or
    one that is no amount), the run ends with that exception before
    the file is opened and before the history is looked at. *)
Theorem no_rate_no_file chain props history e :
  init_conversion_rate chain props = Raise e ->
  main chain props history = (None, Raise e)
  /\ (props !! "total_vesting_fund_hive" = None ->
      e = KeyError "total_vesting_fund_hive")
  /\ (forall text fund value,
         props !! "total_vesting_fund_hive" = Some text ->
         Amount chain text = Ok fund -> Beem.amount fund = Ok value ->
         props !! "total_vesting_shares" = None ->
         e = KeyError "total_vesting_shares").
Proof.
  intros He. split; [unfold main; now rewrite He|].
  unfold init_conversion_rate, getitem in He. split.
  - intros Hf. rewrite Hf in He. cbn [rbind] in He. congruence.
  - intros text fund value Hf Ha Hv Hs.
    rewrite Hf in He. cbn [rbind] in He. rewrite Ha in He. cbn [rbind] in He.
    rewrite Hv in He. cbn [rbind] in He. rewrite Hs in He. cbn [rbind] in He.
    congruence.
Qed.

Lemma no_rate_no_file_witness :
  main hive_assets props_without_shares_example [fill_order_example]
  = (None, Raise (KeyError "total_vesting_shares")).
Proof.
  exact (proj1 (no_rate_no_file hive_assets props_without_shares_example
                  [fill_order_example] (KeyError "total_vesting_shares") eq_refl)).
Defined.
